(** * Gest: application lifecycle (src/main.py) and logging set-up
      (src/utils/__init__.py, imported as [utils.logger])

    A shallow embedding of the two Python modules.  Python code that
    performs effects is written in a small monad [M] that threads the
    interpreter state (module globals, loguru's handler table, the
    attributes of the application object), accumulates the observable
    trace (collaborator calls, log records, sink writes, prints) and
    propagates exceptions.  Everything outside the two modules (camera,
    detection engine, Tk, the file system) is a collaborator whose
    outcome at each call is given by a [world]. *)

From Stdlib Require Import ZArith List Lia FunctionalExtensionality.
From stdpp Require Import base strings gmap.
Import ListNotations.

Local Open Scope string_scope.
Local Open Scope Z_scope.
Local Open Scope list_scope.

(** ** Python values and exceptions *)

(** The exception classes that [main.py] tells apart: [except Exception]
    catches [Exception cls msg] only, [except KeyboardInterrupt] catches
    [KeyboardInterrupt] only, [SystemExit] is what [sys.exit] raises. *)
Inductive exn : Type :=
| KeyboardInterrupt
| SystemExit (code : Z)
| Exception (cls msg : string)
| BaseException (cls msg : string).

Definition is_Exception (e : exn) : bool :=
  match e with Exception _ _ => true | _ => false end.

(** [str(e)] as used by the f-strings of the [except Exception as e] clauses. *)
Definition str (e : exn) : string :=
  match e with
  | Exception _ msg | BaseException _ msg => msg
  | KeyboardInterrupt | SystemExit _ => ""
  end.

(** Values found in a logging configuration dictionary. *)
Inductive pyval : Type :=
| PStr (s : string)
| PInt (n : Z).

(** ** loguru: levels, handlers *)

Inductive level : Type := TRACE | DEBUG | INFO | SUCCESS | WARNING | ERROR | CRITICAL.

(** [level.no], loguru's severity numbers. *)
Definition level_no (l : level) : Z :=
  match l with
  | TRACE => 5 | DEBUG => 10 | INFO => 20 | SUCCESS => 25
  | WARNING => 30 | ERROR => 40 | CRITICAL => 50
  end.

Definition level_of_name (s : string) : option level :=
  if String.eqb s "TRACE" then Some TRACE
  else if String.eqb s "DEBUG" then Some DEBUG
  else if String.eqb s "INFO" then Some INFO
  else if String.eqb s "SUCCESS" then Some SUCCESS
  else if String.eqb s "WARNING" then Some WARNING
  else if String.eqb s "ERROR" then Some ERROR
  else if String.eqb s "CRITICAL" then Some CRITICAL
  else None.

Inductive sink : Type :=
| Stderr
| LogFile (path : string).

(** One entry of loguru's handler table: the arguments of [logger.add],
    with the [level] argument already resolved to its number. *)
Record handler : Type := mkHandler {
  h_sink : sink;
  h_format : pyval;
  h_levelno : Z;
  h_rotation : option pyval;
  h_retention : option pyval;
  h_compression : option string;
  h_colorize : option bool;
  h_backtrace : bool;
  h_diagnose : bool
}.

(** ** Collaborators *)

Inductive resource : Type :=
| CameraManager | DetectionEngine | FeatureProcessor | GestureClassifier | ActionExecutor.

(** Calls that leave the two modules. *)
Inductive call : Type :=
| mkdir (path : string)                 (* log_dir.mkdir(exist_ok=True) *)
| open_sink (s : sink)                  (* loguru opening the sink of logger.add *)
| get_config_manager
| load_settings
| acquire (r : resource)                (* get_camera_manager(), ... *)
| release (r : resource)                (* <r>.release() *)
| settings_get (key : string)           (* .get(key, default) on the loaded settings *)
| settings_getitem (i : nat)            (* window_size[i] *)
| tk (name : string)                    (* a Tk / ttk constructor or method *)
| tk_title (title : string)
| tk_geometry (spec : string)
| tk_quit
| tk_destroy
| tk_mainloop
| GestureTrainerGUI
| showerror (msg : string).

Inductive event : Type :=
| Call (c : call)                               (* a collaborator is invoked *)
| Emit (l : level) (msg : string)               (* logger.<level>(msg) *)
| Write (h : handler) (l : level) (msg : string) (* the record reaches a handler *)
| Print (s : string)
| PrintTraceback.

(** What the user does with the start-up dialog. *)
Inductive dialog_action : Type := ClickTrainer | ClickExit | Dismiss.

(** What arrives while [root.mainloop()] is dispatching. *)
Inductive gui_event : Type :=
| WmDeleteWindow        (* the user closes the main window *)
| Sigint                (* KeyboardInterrupt raised out of mainloop *)
| LoopError (e : exn).  (* mainloop raises e *)

Record world : Type := mkWorld {
  w_call : nat -> call -> option exn;   (* None: the call returns normally *)
  w_window_title : string;              (* the window title the settings give *)
  w_window_size : string * string;      (* window_size[0] and [1], formatted *)
  w_dialog : dialog_action;
  w_children : nat;                     (* widgets under the root window *)
  w_gui : list gui_event
}.

(** ** Interpreter state *)

Record GestLogger : Type := mkGestLogger { config : gmap string pyval }.

Inductive Tk : Type := TkRoot.

(** The attributes of a [GestApplication] instance; [None] is an attribute
    that has not been assigned (so that [hasattr] is [false] and reading it
    raises AttributeError).  [root] is [Some None] when it holds Python's
    [None]. *)
Record GestApplication : Type := mkApp {
  logger : option unit;
  config_manager : option unit;
  settings : option unit;
  camera_manager : option resource;
  detection_engine : option resource;
  feature_processor : option resource;
  gesture_classifier : option resource;
  action_executor : option resource;
  root : option (option Tk);
  main_gui : option (option unit);
  trainer_window : option (option unit);
  trainer_gui : option unit
}.

Definition new_object : GestApplication :=
  mkApp None None None None None None None None None None None None.

Inductive callback : Type := cb_on_closing.

Record state : Type := mkState {
  clock : nat;                              (* collaborator calls made so far *)
  _logger_instance : option GestLogger;     (* the global of utils.logger *)
  handlers : list handler;                  (* loguru's handler table *)
  self : GestApplication;
  wm_delete_window : option callback;       (* root.protocol("WM_DELETE_WINDOW", _) *)
  quit_requested : bool                     (* root.quit() was called *)
}.

(** A fresh interpreter: loguru starts with its default stderr handler
    (level DEBUG), nothing else is set. *)
Definition default_handler : handler :=
  mkHandler Stderr
    (PStr "<green>{time:YYYY-MM-DD HH:mm:ss.SSS}</green> | <level>{level: <8}</level> | <cyan>{name}</cyan>:<cyan>{function}</cyan>:<cyan>{line}</cyan> - <level>{message}</level>")
    10 None None None None true true.

Definition initial_state : state :=
  mkState 0 None [default_handler] new_object None false.

Definition set_clock (n : nat) (st : state) : state :=
  mkState n (_logger_instance st) (handlers st) (self st) (wm_delete_window st) (quit_requested st).
Definition set_logger_instance (g : option GestLogger) (st : state) : state :=
  mkState (clock st) g (handlers st) (self st) (wm_delete_window st) (quit_requested st).
Definition set_handlers (hs : list handler) (st : state) : state :=
  mkState (clock st) (_logger_instance st) hs (self st) (wm_delete_window st) (quit_requested st).
Definition set_self (a : GestApplication) (st : state) : state :=
  mkState (clock st) (_logger_instance st) (handlers st) a (wm_delete_window st) (quit_requested st).
Definition set_wm_delete_window (c : option callback) (st : state) : state :=
  mkState (clock st) (_logger_instance st) (handlers st) (self st) c (quit_requested st).
Definition set_quit_requested (b : bool) (st : state) : state :=
  mkState (clock st) (_logger_instance st) (handlers st) (self st) (wm_delete_window st) b.

(** ** The monad *)

Inductive result (A : Type) : Type :=
| Ret (a : A)       (* returns a *)
| Raise (e : exn)   (* an exception propagates *)
| Hang.             (* blocked in the event loop: no further event arrives *)
Arguments Ret {A} a.
Arguments Raise {A} e.
Arguments Hang {A}.

Definition M (A : Type) : Type := state -> list event * state * result A.

Definition ret {A} (a : A) : M A := fun st => ([], st, Ret a).
Definition raise {A} (e : exn) : M A := fun st => ([], st, Raise e).
Definition hang {A} : M A := fun st => ([], st, Hang).

Definition bind {A B} (m : M A) (f : A -> M B) : M B := fun st =>
  match m st with
  | (tr, st1, Ret a) => let '(tr', st2, r) := f a st1 in (tr ++ tr', st2, r)
  | (tr, st1, Raise e) => (tr, st1, Raise e)
  | (tr, st1, Hang) => (tr, st1, Hang)
  end.

Declare Scope py_scope.
Delimit Scope py_scope with py.
Notation "x <- m ;; k" := (bind m (fun x => k))
  (at level 100, m at next level, k at level 200, right associativity) : py_scope.
Notation "m ;; k" := (bind m (fun _ => k))
  (at level 100, k at level 200, right associativity) : py_scope.
Local Open Scope py_scope.

(** [try: m except <clauses>]: [h e] is the body of the first clause that
    matches [e], if any. *)
Definition try_except {A} (m : M A) (h : exn -> option (M A)) : M A := fun st =>
  match m st with
  | (tr, st1, Raise e) =>
      match h e with
      | Some k => let '(tr', st2, r) := k st1 in (tr ++ tr', st2, r)
      | None => (tr, st1, Raise e)
      end
  | o => o
  end.

(** [try: m finally: f]. *)
Definition try_finally {A} (m : M A) (f : M unit) : M A := fun st =>
  match m st with
  | (tr, st1, Hang) => (tr, st1, Hang)
  | (tr, st1, r) =>
      match f st1 with
      | (tr', st2, Ret _) => (tr ++ tr', st2, r)
      | (tr', st2, Raise e) => (tr ++ tr', st2, Raise e)
      | (tr', st2, Hang) => (tr ++ tr', st2, Hang)
      end
  end.

Definition get_state : M state := fun st => ([], st, Ret st).
Definition modify (f : state -> state) : M unit := fun st => ([], f st, Ret tt).
Definition tell (e : event) : M unit := fun st => ([e], st, Ret tt).

Definition trace_of {A} (o : list event * state * result A) : list event := fst (fst o).
Definition state_of {A} (o : list event * state * result A) : state := snd (fst o).
Definition result_of {A} (o : list event * state * result A) : result A := snd o.

(** [print(s)]. *)
Definition print (s : string) : M unit := tell (Print s).

(** [logger.<l>(msg)]: the record goes to every handler whose level number
    is at most the record's, in the order of the handler table. *)
Definition accepts (l : level) (h : handler) : bool := (h_levelno h <=? level_no l)%Z.

Definition logged (hs : list handler) (l : level) (msg : string) : list event :=
  Emit l msg :: map (fun h => Write h l msg) (List.filter (accepts l) hs).

Definition log (l : level) (msg : string) : M unit := fun st =>
  (logged (handlers st) l msg, st, Ret tt).

(** Reading an attribute of [self]: AttributeError when it was never
    assigned. *)
Definition no_attribute (name : string) : exn :=
  Exception "AttributeError" ("'GestApplication' object has no attribute '" +:+ name +:+ "'").

Definition getattr {A} (name : string) (field : GestApplication -> option A) : M A := fun st =>
  match field (self st) with
  | Some v => ([], st, Ret v)
  | None => ([], st, Raise (no_attribute name))
  end.

Definition hasattr {A} (field : GestApplication -> option A) : M bool := fun st =>
  ([], st, Ret (match field (self st) with Some _ => true | None => false end)).

(** [self.logger.<l>(msg)]. *)
Definition self_logger (l : level) (msg : string) : M unit :=
  _ <- getattr "logger" logger ;; log l msg.

Definition setattr (f : GestApplication -> GestApplication) : M unit :=
  modify (fun st => set_self (f (self st)) st).

Definition with_logger v a := mkApp v (config_manager a) (settings a) (camera_manager a)
  (detection_engine a) (feature_processor a) (gesture_classifier a) (action_executor a)
  (root a) (main_gui a) (trainer_window a) (trainer_gui a).
Definition with_config_manager v a := mkApp (logger a) v (settings a) (camera_manager a)
  (detection_engine a) (feature_processor a) (gesture_classifier a) (action_executor a)
  (root a) (main_gui a) (trainer_window a) (trainer_gui a).
Definition with_settings v a := mkApp (logger a) (config_manager a) v (camera_manager a)
  (detection_engine a) (feature_processor a) (gesture_classifier a) (action_executor a)
  (root a) (main_gui a) (trainer_window a) (trainer_gui a).
Definition with_camera_manager v a := mkApp (logger a) (config_manager a) (settings a) v
  (detection_engine a) (feature_processor a) (gesture_classifier a) (action_executor a)
  (root a) (main_gui a) (trainer_window a) (trainer_gui a).
Definition with_detection_engine v a := mkApp (logger a) (config_manager a) (settings a)
  (camera_manager a) v (feature_processor a) (gesture_classifier a) (action_executor a)
  (root a) (main_gui a) (trainer_window a) (trainer_gui a).
Definition with_feature_processor v a := mkApp (logger a) (config_manager a) (settings a)
  (camera_manager a) (detection_engine a) v (gesture_classifier a) (action_executor a)
  (root a) (main_gui a) (trainer_window a) (trainer_gui a).
Definition with_gesture_classifier v a := mkApp (logger a) (config_manager a) (settings a)
  (camera_manager a) (detection_engine a) (feature_processor a) v (action_executor a)
  (root a) (main_gui a) (trainer_window a) (trainer_gui a).
Definition with_action_executor v a := mkApp (logger a) (config_manager a) (settings a)
  (camera_manager a) (detection_engine a) (feature_processor a) (gesture_classifier a) v
  (root a) (main_gui a) (trainer_window a) (trainer_gui a).
Definition with_root v a := mkApp (logger a) (config_manager a) (settings a)
  (camera_manager a) (detection_engine a) (feature_processor a) (gesture_classifier a)
  (action_executor a) v (main_gui a) (trainer_window a) (trainer_gui a).
Definition with_main_gui v a := mkApp (logger a) (config_manager a) (settings a)
  (camera_manager a) (detection_engine a) (feature_processor a) (gesture_classifier a)
  (action_executor a) (root a) v (trainer_window a) (trainer_gui a).
Definition with_trainer_window v a := mkApp (logger a) (config_manager a) (settings a)
  (camera_manager a) (detection_engine a) (feature_processor a) (gesture_classifier a)
  (action_executor a) (root a) (main_gui a) v (trainer_gui a).
Definition with_trainer_gui v a := mkApp (logger a) (config_manager a) (settings a)
  (camera_manager a) (detection_engine a) (feature_processor a) (gesture_classifier a)
  (action_executor a) (root a) (main_gui a) (trainer_window a) v.

(** ** Dictionary and f-string helpers *)

#[global] Instance pyval_eq_dec : EqDecision pyval.
Proof. solve_decision. Defined.

(** [d[k]]. *)
Definition getitem (d : gmap string pyval) (k : string) : M pyval :=
  match d !! k with
  | Some v => ret v
  | None => raise (Exception "KeyError" ("'" +:+ k +:+ "'"))
  end.

(** The line feed of ["\n"]. *)
Definition newline : string :=
  String (Ascii.Ascii false true false true false false false false) EmptyString.

(** [Path(v)]. *)
Definition Path (v : pyval) : M string :=
  match v with
  | PStr s => ret s
  | _ => raise (Exception "TypeError" "expected str, bytes or os.PathLike object")
  end.

(** [dir / name]. *)
Definition path_join (dir name : string) : string := dir +:+ "/" +:+ name.

(** ** Decorators

    [decorated d name m] is the function [m] wrapped by a
    try/except decorator [d]: an exception that [d] catches is handled by
    [on_catch] and the wrapper returns [None]; any other propagates. *)
Record decorator : Type := mkDecorator {
  catches : exn -> bool;
  on_catch : string -> exn -> M unit
}.

Definition decorated (d : decorator) {A} (name : string) (m : M A) : M (option A) :=
  try_except (a <- m ;; ret (Some a))
    (fun e => if catches d e then Some (on_catch d name e ;; ret None) else None).

(** Modelled from the spec: [utils.error_handler.handle_exceptions], which
    main.py imports and applies to [run], is not among the sources.  The
    design notes call it "decorator-style exception swallowing" and the
    failure semantics say that an error raised by a collaborator is caught
    and logged as an Error record with the original message: the wrapper
    catches [Exception], logs it and returns [None]. *)
Definition handle_exceptions : decorator :=
  mkDecorator is_Exception (fun name e => log ERROR ("Error in " +:+ name +:+ ": " +:+ str e)).

Section Program.

Variable w : world.
Variable deco : decorator.

(** A collaborator call: it is recorded, and the world decides whether it
    returns or raises. *)
Definition ext (c : call) : M unit := fun st =>
  match w_call w (clock st) c with
  | None => ([Call c], set_clock (S (clock st)) st, Ret tt)
  | Some e => ([Call c], set_clock (S (clock st)) st, Raise e)
  end.

(** *** utils.logger *)

Definition console_format : string :=
  "<green>{time:YYYY-MM-DD HH:mm:ss}</green> | <level>{level}</level> | <cyan>{name}</cyan>:<cyan>{function}</cyan>:<cyan>{line}</cyan> - <level>{message}</level>".

(** [GestLogger._get_default_config]. *)
Definition _get_default_config : gmap string pyval :=
  list_to_map [
    ("log_dir", PStr "logs");
    ("max_file_size", PStr "10MB");
    ("backup_count", PInt 5);
    ("format", PStr "{time:YYYY-MM-DD HH:mm:ss} | {level} | {name}:{function}:{line} | {message}");
    ("level", PStr "INFO")
  ].

(** loguru resolving the [level] argument of [logger.add]: the number of
    a level name, or a non-negative number as it is. *)
Definition levelno_of (v : pyval) : option Z :=
  match v with
  | PStr name => level_no <$> level_of_name name
  | PInt n => if n <? 0 then None else Some n
  end.

Definition resolve_level (v : pyval) : M Z :=
  match levelno_of v with
  | Some n => ret n
  | None => raise (Exception "ValueError" "Invalid level")
  end.

(** [logger.remove()]. *)
Definition logger_remove : M unit := modify (set_handlers []).

(** [logger.add(sink, format=, level=, ...)].  Of loguru's checks of the
    arguments only the resolution of the level is written out; what else
    loguru does with the sink and its options is the collaborator call
    [open_sink], which returns or raises as the world has it. *)
Definition logger_add (s : sink) (fmt lvl : pyval) (rotation retention : option pyval)
    (compression : option string) (colorize : option bool) : M unit :=
  ext (open_sink s) ;;
  no <- resolve_level lvl ;;
  modify (fun st => set_handlers
    (handlers st ++ [mkHandler s fmt no rotation retention compression colorize true true]) st).

(** [GestLogger._setup_logger], with [self.config = cfg]. *)
Definition _setup_logger (cfg : gmap string pyval) : M unit :=
  logger_remove ;;
  d <- getitem cfg "log_dir" ;;
  log_dir <- Path d ;;
  ext (mkdir log_dir) ;;
  lvl <- getitem cfg "level" ;;
  logger_add Stderr (PStr console_format) lvl None None None (Some true) ;;
  fmt <- getitem cfg "format" ;;
  rotation <- getitem cfg "max_file_size" ;;
  retention <- getitem cfg "backup_count" ;;
  logger_add (LogFile (path_join log_dir "gest_{time}.log")) fmt (PStr "DEBUG")
    (Some rotation) (Some retention) (Some "zip") None ;;
  fmt' <- getitem cfg "format" ;;
  rotation' <- getitem cfg "max_file_size" ;;
  retention' <- getitem cfg "backup_count" ;;
  logger_add (LogFile (path_join log_dir "gest_errors_{time}.log")) fmt' (PStr "ERROR")
    (Some rotation') (Some retention') (Some "zip") None ;;
  log INFO "Logger initialized successfully".

(** [config or self._get_default_config()]: [None] and the empty
    dictionary are falsy. *)
Definition config_or_default (config : option (gmap string pyval)) : gmap string pyval :=
  match config with
  | Some c => if decide (c = ∅) then _get_default_config else c
  | None => _get_default_config
  end.

(** [GestLogger.__init__]. *)
Definition GestLogger__init__ (config : option (gmap string pyval)) : M GestLogger :=
  let cfg := config_or_default config in
  _setup_logger cfg ;;
  ret (mkGestLogger cfg).

(** [setup_logger(config)]; the value returned is the loguru logger. *)
Definition setup_logger (config : option (gmap string pyval)) : M unit :=
  st <- get_state ;;
  match _logger_instance st with
  | None =>
      g <- GestLogger__init__ config ;;
      modify (set_logger_instance (Some g))
  | Some _ => ret tt
  end.

(** [get_logger()]. *)
Definition get_logger : M unit :=
  st <- get_state ;;
  match _logger_instance st with
  | None => setup_logger None
  | Some _ => ret tt
  end.

(** *** main.GestApplication *)

Definition acquire_into (r : resource)
    (set : option resource -> GestApplication -> GestApplication) : M unit :=
  ext (acquire r) ;; setattr (set (Some r)).

(** [GestApplication.__init__]. *)
Definition GestApplication__init__ : M unit :=
  setup_logger None ;;
  setattr (with_logger (Some tt)) ;;
  self_logger INFO "Starting Gest Application..." ;;
  try_except
    (ext get_config_manager ;;
     setattr (with_config_manager (Some tt)) ;;
     _ <- getattr "config_manager" config_manager ;;
     ext load_settings ;;
     setattr (with_settings (Some tt)) ;;
     self_logger INFO "Configuration loaded successfully")
    (fun e =>
       match e with
       | Exception _ _ =>
           Some (self_logger ERROR ("Failed to load configuration: " +:+ str e) ;;
                 raise (SystemExit 1))
       | _ => None
       end) ;;
  acquire_into CameraManager with_camera_manager ;;
  acquire_into DetectionEngine with_detection_engine ;;
  acquire_into FeatureProcessor with_feature_processor ;;
  acquire_into GestureClassifier with_gesture_classifier ;;
  acquire_into ActionExecutor with_action_executor ;;
  setattr (with_root (Some None)) ;;
  setattr (with_main_gui (Some None)) ;;
  setattr (with_trainer_window (Some None)) ;;
  self_logger INFO "Gest application initialized successfully".

(** [configure_styles]. *)
Definition configure_styles : M unit :=
  ext (tk "ttk.Style") ;;
  ext (tk "style.configure").

(** [create_main_window].  The settings object comes from the
    configuration manager: reading it is a collaborator call, and the world
    gives the title and the two sizes it yields. *)
Definition create_main_window : M unit :=
  ext (tk "Tk") ;;
  setattr (with_root (Some (Some TkRoot))) ;;
  _ <- getattr "settings" settings ;;
  ext (settings_get "gui") ;;
  ext (settings_get "window_title") ;;
  let window_title := w_window_title w in
  ext (settings_get "window_size") ;;
  _ <- getattr "root" root ;;
  ext (tk_title window_title) ;;
  _ <- getattr "root" root ;;
  ext (settings_getitem 0) ;;
  ext (settings_getitem 1) ;;
  ext (tk_geometry (fst (w_window_size w) +:+ "x" +:+ snd (w_window_size w))) ;;
  _ <- getattr "root" root ;;
  ext (tk "root.configure") ;;
  configure_styles ;;
  _ <- getattr "root" root ;;
  ext (tk "root.protocol") ;;
  modify (set_wm_delete_window (Some cb_on_closing)) ;;
  self_logger INFO ("Main window created: " +:+ window_title).

(** [show_startup_dialog]: [result] starts as "exit"; the buttons set it
    and destroy the dialog; dismissing the dialog only destroys it. *)
Definition show_startup_dialog : M string :=
  ext (tk "Toplevel") ;;
  ext (tk "dialog.title") ;;
  ext (tk "dialog.geometry") ;;
  ext (tk "dialog.configure") ;;
  _ <- getattr "root" root ;;
  ext (tk "dialog.transient") ;;
  ext (tk "dialog.grab_set") ;;
  ext (tk "StringVar") ;;
  let result := "exit" in
  ext (tk "ttk.Label") ;;
  ext (tk "title_label.pack") ;;
  ext (tk "ttk.Frame") ;;
  ext (tk "button_frame.pack") ;;
  ext (tk "ttk.Button") ;;
  ext (tk "trainer_button.pack") ;;
  ext (tk "ttk.Button") ;;
  ext (tk "exit_button.pack") ;;
  ext (tk "dialog.wait_window") ;;
  let result :=
    match w_dialog w with
    | ClickTrainer => "trainer"
    | ClickExit => "exit"
    | Dismiss => result
    end in
  ext (tk "result.get") ;;
  ret result.

Fixpoint destroy_widgets (n : nat) : M unit :=
  match n with
  | O => ret tt
  | S n' => ext (tk "widget.destroy") ;; destroy_widgets n'
  end.

(** [run_trainer_mode]. *)
Definition run_trainer_mode : M unit :=
  try_except
    (_ <- getattr "root" root ;;
     ext GestureTrainerGUI ;;
     setattr (with_trainer_gui (Some tt)) ;;
     _ <- getattr "root" root ;;
     ext (tk "root.winfo_children") ;;
     destroy_widgets (w_children w) ;;
     self_logger INFO "Gesture trainer mode started")
    (fun e =>
       match e with
       | Exception _ _ =>
           Some (self_logger ERROR ("Error running trainer mode: " +:+ str e) ;;
                 ext (showerror ("Failed to start trainer mode: " +:+ str e)))
       | _ => None
       end).

(** [on_closing]. *)
Definition on_closing : M unit :=
  self_logger INFO "Closing Gest application..." ;;
  has_camera <- hasattr camera_manager ;;
  (if has_camera
   then r <- getattr "camera_manager" camera_manager ;; ext (release r)
   else ret tt) ;;
  has_engine <- hasattr detection_engine ;;
  (if has_engine
   then r <- getattr "detection_engine" detection_engine ;; ext (release r)
   else ret tt) ;;
  rt <- getattr "root" root ;;
  match rt with
  | Some _ =>
      ext tk_quit ;;
      modify (set_quit_requested true) ;;
      _ <- getattr "root" root ;;
      ext tk_destroy
  | None => ret tt
  end ;;
  self_logger INFO "Gest application closed".

(** Tk runs a callback inside its own handler: SystemExit is re-raised,
    anything else is reported on stderr and swallowed. *)
Definition tk_callback (m : M unit) : M unit :=
  try_except m
    (fun e => match e with SystemExit _ => None | _ => Some (tell PrintTraceback) end).

Definition run_callback (c : callback) : M unit :=
  match c with cb_on_closing => tk_callback on_closing end.

(** The event loop of [root.mainloop()]: it dispatches the events that
    arrive until [quit] has been requested, the window is gone, or an
    exception leaves it; with no event left it keeps waiting. *)
Fixpoint dispatch (evs : list gui_event) : M unit :=
  match evs with
  | [] => hang
  | WmDeleteWindow :: rest =>
      st <- get_state ;;
      match wm_delete_window st with
      | Some c =>
          run_callback c ;;
          st' <- get_state ;;
          if quit_requested st' then ret tt else dispatch rest
      | None => ret tt
      end
  | Sigint :: _ => raise KeyboardInterrupt
  | LoopError e :: _ => raise e
  end.

Definition mainloop : M unit :=
  _ <- getattr "root" root ;;
  ext tk_mainloop ;;
  dispatch (w_gui w).

(** The body of [run], before decoration. *)
Definition run_body : M unit :=
  self_logger INFO "Starting Gest application..." ;;
  create_main_window ;;
  mode <- show_startup_dialog ;;
  if String.eqb mode "exit" then on_closing
  else
    (if String.eqb mode "trainer" then run_trainer_mode else ret tt) ;;
    self_logger INFO "Starting GUI event loop..." ;;
    mainloop.

(** [@handle_exceptions def run(self)]. *)
Definition run : M (option unit) := decorated deco "run" run_body.

(** The [try] block of [main()]: [app = GestApplication(); app.run()]. *)
Definition main_body : M unit :=
  GestApplication__init__ ;; _ <- run ;; ret tt.

(** [main()]. *)
Definition main : M unit :=
  try_finally
    (try_except main_body
       (fun e =>
          match e with
          | KeyboardInterrupt =>
              Some (print (newline +:+ "Application interrupted by user"))
          | Exception _ _ =>
              Some (print ("Application error: " +:+ str e) ;; tell PrintTraceback)
          | _ => None
          end))
    (print "Gest application terminated").

End Program.

(** The exit status of [python main.py] from how [main()] ends: 0 when it
    returns, the argument of [sys.exit] for SystemExit, 130 for an unhandled
    KeyboardInterrupt and 1 for any other unhandled exception; no status
    while the process is still waiting in the event loop. *)
Definition exit_status (r : result unit) : option Z :=
  match r with
  | Ret _ => Some 0
  | Raise (SystemExit code) => Some code
  | Raise KeyboardInterrupt => Some 130
  | Raise _ => Some 1
  | Hang => None
  end.

(** ** Worlds and traces *)

#[global] Instance resource_eq_dec : EqDecision resource.
Proof. solve_decision. Defined.
#[global] Instance sink_eq_dec : EqDecision sink.
Proof. solve_decision. Defined.
#[global] Instance call_eq_dec : EqDecision call.
Proof. solve_decision. Defined.

(** The world in which every collaborator call returns normally. *)
Definition calm (dlg : dialog_action) (evs : list gui_event) : world :=
  mkWorld (fun _ _ => None) "Gest - Gesture Recognition" ("1200", "800") dlg 0 evs.

(** The same world, except that every call [c] raises [e]. *)
Definition failing (c : call) (e : exn) (dlg : dialog_action) (evs : list gui_event) : world :=
  mkWorld (fun _ c' => if bool_decide (c' = c) then Some e else None)
    "Gest - Gesture Recognition" ("1200", "800") dlg 0 evs.

Definition all_calls_return (w : world) : Prop :=
  forall t c, w_call w t c = None.

Definition only_raising (w : world) (c : call) (e : exn) : Prop :=
  forall t c', w_call w t c' = if bool_decide (c' = c) then Some e else None.

(** Projections of a trace. *)
Definition releases (tr : list event) : list resource :=
  omap (fun ev => match ev with Call (release r) => Some r | _ => None end) tr.

Definition acquisitions (tr : list event) : list resource :=
  omap (fun ev => match ev with Call (acquire r) => Some r | _ => None end) tr.

Definition emitted (tr : list event) : list (level * string) :=
  omap (fun ev => match ev with Emit l msg => Some (l, msg) | _ => None end) tr.

Definition printed (tr : list event) : list string :=
  omap (fun ev => match ev with Print s => Some s | _ => None end) tr.

(** The three handlers that [_setup_logger] installs, as a function of
    what it reads from the configuration. *)
Definition sinks_for (log_dir : string) (console_level : Z) (fmt rotation retention : pyval)
    : list handler :=
  [ mkHandler Stderr (PStr console_format) console_level None None None (Some true) true true;
    mkHandler (LogFile (path_join log_dir "gest_{time}.log")) fmt (level_no DEBUG)
      (Some rotation) (Some retention) (Some "zip") None true true;
    mkHandler (LogFile (path_join log_dir "gest_errors_{time}.log")) fmt (level_no ERROR)
      (Some rotation) (Some retention) (Some "zip") None true true ].

(** ** Vocabulary of the statements *)

#[global] Instance level_eq_dec : EqDecision level.
Proof. solve_decision. Defined.

#[global] Instance handler_eq_dec : EqDecision handler.
Proof. solve_decision. Defined.

#[global] Instance event_eq_dec : EqDecision event.
Proof. solve_decision. Defined.

(** The records of a trace that reached handler [h], in order. *)
Definition written_to (h : handler) (tr : list event) : list (level * string) :=
  omap (fun ev =>
          match ev with
          | Write h' l msg => if decide (h' = h) then Some (l, msg) else None
          | _ => None
          end) tr.


(** A second logging configuration, differing from the default in the
    directory and the console level. *)
Definition debug_config : gmap string pyval :=
  <["level" := PStr "DEBUG"]> (<["log_dir" := PStr "debug_logs"]> _get_default_config).

(** The release calls of [on_closing]: the camera manager and then the
    detection engine, each if the attribute is there. *)
Definition release_calls (a : GestApplication) : list event :=
  map (fun r => Call (release r))
    (option_list (camera_manager a) ++ option_list (detection_engine a)).

Definition teardown_calls_return (w : world) : Prop :=
  (forall t r, w_call w t (release r) = None) /\
  (forall t, w_call w t tk_quit = None) /\
  (forall t, w_call w t tk_destroy = None).

Definition acquisition_order : list resource :=
  [CameraManager; DetectionEngine; FeatureProcessor; GestureClassifier; ActionExecutor].


(** ** The camera start-up of main.GestApplication

    [initialize_camera] calls two methods of the camera manager.  They are
    taken as they come: any computation may stand for
    [self.camera_manager.initialize_camera()], which yields the success
    flag, and for [self.camera_manager.get_camera_info()], which yields the
    text that the f-string shows. *)
Section Camera.

Variable deco : decorator.
Variable camera_initialize : M bool.
Variable camera_get_info : M string.

(** The body of [initialize_camera], before decoration. *)
Definition initialize_camera_body : M bool :=
  try_except
    (self_logger INFO "Initializing camera system..." ;;
     _ <- getattr "camera_manager" camera_manager ;;
     success <- camera_initialize ;;
     (if success
      then
        _ <- getattr "camera_manager" camera_manager ;;
        camera_info <- camera_get_info ;;
        self_logger INFO ("Camera initialized: " +:+ camera_info)
      else self_logger ERROR "Failed to initialize camera") ;;
     ret success)
    (fun e =>
       match e with
       | Exception _ _ =>
           Some (self_logger ERROR ("Camera initialization error: " +:+ str e) ;;
                 ret false)
       | _ => None
       end).

(** [@handle_exceptions def initialize_camera(self)]. *)
Definition initialize_camera : M (option bool) :=
  decorated deco "initialize_camera" initialize_camera_body.

End Camera.

(** A computation that leaves a component [f] of the state alone, however
    it ends. *)
Definition keeps {A X} (f : state -> X) (m : M A) : Prop :=
  forall st, f (state_of (m st)) = f st.

(** A computation that leaves the attributes of the application alone. *)
Definition keeps_attributes {A} (m : M A) : Prop := keeps self m.

(** The calls of [messagebox.showerror] in a trace. *)
Definition error_dialogs (tr : list event) : list string :=
  omap (fun ev => match ev with Call (showerror msg) => Some msg | _ => None end) tr.

(** The sinks of the default configuration. *)
Definition default_sinks : list handler :=
  sinks_for "logs" (level_no INFO)
    (PStr "{time:YYYY-MM-DD HH:mm:ss} | {level} | {name}:{function}:{line} | {message}")
    (PStr "10MB") (PInt 5).

(** A computation on whose traces the collaborator call [c] never occurs,
    from whatever state it starts. *)
Definition never_calls {A} (c : call) (m : M A) : Prop :=
  forall st, ~ In (Call c) (trace_of (m st)).

(** The five keys that [_setup_logger] reads. *)
Definition config_keys : list string :=
  ["log_dir"; "level"; "format"; "max_file_size"; "backup_count"].

(** * Reasoning about computations *)

Lemma bind_Ret_inv {A B} (m : M A) (f : A -> M B) st tr st' b :
  bind m f st = (tr, st', Ret b) ->
  exists tr1 st1 a tr2,
    m st = (tr1, st1, Ret a) /\ f a st1 = (tr2, st', Ret b) /\ tr = tr1 ++ tr2.
Proof.
  unfold bind. destruct (m st) as [[tr1 st1] [a | e |]]; try discriminate.
  destruct (f a st1) as [[tr2 st2] r] eqn:Hf. intros [= <- <- ->].
  exists tr1, st1, a, tr2. auto.
Qed.

Lemma bind_trace_prefix {A B} (m : M A) (f : A -> M B) st :
  exists rest, trace_of (bind m f st) = trace_of (m st) ++ rest /\
               ((forall a, result_of (m st) <> Ret a) -> rest = []).
Proof.
  unfold bind. destruct (m st) as [[tr1 st1] [a | e |]].
  - destruct (f a st1) as [[tr2 st2] r]. exists tr2. split; [reflexivity |].
    intros H. now destruct (H a).
  - exists []. split; [symmetry; apply app_nil_r | reflexivity].
  - exists []. split; [symmetry; apply app_nil_r | reflexivity].
Qed.

Lemma getitem_Ret_inv d k st tr st' v :
  getitem d k st = (tr, st', Ret v) -> d !! k = Some v /\ tr = [] /\ st' = st.
Proof.
  unfold getitem. destruct (d !! k); [intros [= <- <- <-] | intros [=]]; auto.
Qed.

Lemma Path_Ret_inv v st tr st' p :
  Path v st = (tr, st', Ret p) -> v = PStr p /\ tr = [] /\ st' = st.
Proof. destruct v; [intros [= <- <- <-] | intros [=]]; auto. Qed.

Lemma ext_Ret_inv w c st tr st' u :
  ext w c st = (tr, st', Ret u) ->
  w_call w (clock st) c = None /\ tr = [Call c] /\ st' = set_clock (S (clock st)) st.
Proof.
  unfold ext. destruct (w_call w (clock st) c); [intros [=] | intros [= <- <-]]; auto.
Qed.

Lemma resolve_level_Ret_inv v st tr st' n :
  resolve_level v st = (tr, st', Ret n) -> levelno_of v = Some n /\ tr = [] /\ st' = st.
Proof.
  unfold resolve_level. destruct (levelno_of v); [intros [= <- <- <-] | intros [=]]; auto.
Qed.

Lemma logger_add_Ret_inv w s fmt lvl rot ret_ comp col st tr st' u :
  logger_add w s fmt lvl rot ret_ comp col st = (tr, st', Ret u) ->
  exists n, levelno_of lvl = Some n /\ tr = [Call (open_sink s)] /\
    st' = set_handlers (handlers st ++ [mkHandler s fmt n rot ret_ comp col true true])
            (set_clock (S (clock st)) st).
Proof.
  unfold logger_add. intros H.
  apply bind_Ret_inv in H as (tr1 & st1 & [] & tr2 & H1 & H & ->).
  apply ext_Ret_inv in H1 as (_ & -> & ->).
  apply bind_Ret_inv in H as (tr3 & st3 & n & tr4 & H3 & H & ->).
  apply resolve_level_Ret_inv in H3 as (Hn & -> & ->).
  unfold modify in H. injection H as <- <-. exists n. auto.
Qed.

(** What a successful [_setup_logger] has read and done. *)
Lemma _setup_logger_Ret_inv w cfg st tr st' u :
  _setup_logger w cfg st = (tr, st', Ret u) ->
  exists d lvl n fmt rot ret_,
    cfg !! "log_dir" = Some (PStr d) /\
    cfg !! "level" = Some lvl /\ levelno_of lvl = Some n /\
    cfg !! "format" = Some fmt /\
    cfg !! "max_file_size" = Some rot /\
    cfg !! "backup_count" = Some ret_ /\
    handlers st' = sinks_for d n fmt rot ret_ /\
    _logger_instance st' = _logger_instance st /\ self st' = self st /\
    tr = [Call (mkdir d); Call (open_sink Stderr);
          Call (open_sink (LogFile (path_join d "gest_{time}.log")));
          Call (open_sink (LogFile (path_join d "gest_errors_{time}.log")))]
         ++ logged (sinks_for d n fmt rot ret_) INFO "Logger initialized successfully".
Proof.
  unfold _setup_logger, logger_remove. intros H.
  apply bind_Ret_inv in H as (? & st1 & [] & ? & H1 & H & ->).
  unfold modify in H1. injection H1 as <- <-.
  apply bind_Ret_inv in H as (? & ? & v & ? & H1 & H & ->).
  apply getitem_Ret_inv in H1 as (Hdir & -> & ->).
  apply bind_Ret_inv in H as (? & ? & d & ? & H1 & H & ->).
  apply Path_Ret_inv in H1 as (-> & -> & ->).
  apply bind_Ret_inv in H as (? & ? & [] & ? & H1 & H & ->).
  apply ext_Ret_inv in H1 as (_ & -> & ->).
  apply bind_Ret_inv in H as (? & ? & lvl & ? & H1 & H & ->).
  apply getitem_Ret_inv in H1 as (Hlvl & -> & ->).
  apply bind_Ret_inv in H as (? & ? & [] & ? & H1 & H & ->).
  apply logger_add_Ret_inv in H1 as (n & Hn & -> & ->).
  apply bind_Ret_inv in H as (? & ? & fmt & ? & H1 & H & ->).
  apply getitem_Ret_inv in H1 as (Hfmt & -> & ->).
  apply bind_Ret_inv in H as (? & ? & rot & ? & H1 & H & ->).
  apply getitem_Ret_inv in H1 as (Hrot & -> & ->).
  apply bind_Ret_inv in H as (? & ? & ret_ & ? & H1 & H & ->).
  apply getitem_Ret_inv in H1 as (Hret & -> & ->).
  apply bind_Ret_inv in H as (? & ? & [] & ? & H1 & H & ->).
  apply logger_add_Ret_inv in H1 as (n2 & Hn2 & -> & ->).
  apply bind_Ret_inv in H as (? & ? & fmt' & ? & H1 & H & ->).
  apply getitem_Ret_inv in H1 as (Hfmt' & -> & ->).
  apply bind_Ret_inv in H as (? & ? & rot' & ? & H1 & H & ->).
  apply getitem_Ret_inv in H1 as (Hrot' & -> & ->).
  apply bind_Ret_inv in H as (? & ? & ret' & ? & H1 & H & ->).
  apply getitem_Ret_inv in H1 as (Hret' & -> & ->).
  apply bind_Ret_inv in H as (? & ? & [] & ? & H1 & H & ->).
  apply logger_add_Ret_inv in H1 as (n3 & Hn3 & -> & ->).
  unfold log in H. injection H as <- <-.
  assert (fmt' = fmt) as -> by congruence.
  assert (rot' = rot) as -> by congruence.
  assert (ret' = ret_) as -> by congruence.
  injection Hn2 as <-. injection Hn3 as <-.
  exists d, lvl, n, fmt, rot, ret_. repeat split; auto.
Qed.

(** * Logging: routing by severity *)








(** * Logging: the global instance *)

Lemma setup_logger_configured w cfg st g :
  _logger_instance st = Some g -> setup_logger w cfg st = ([], st, Ret tt).
Proof. intros H. unfold setup_logger, bind, get_state, ret. rewrite H. reflexivity. Qed.

Lemma GestLogger__init__Ret_inv w cfg st tr st' g :
  GestLogger__init__ w cfg st = (tr, st', Ret g) ->
  exists d lvl n fmt rot ret_,
    config_or_default cfg !! "log_dir" = Some (PStr d) /\
    config_or_default cfg !! "level" = Some lvl /\ levelno_of lvl = Some n /\
    config_or_default cfg !! "format" = Some fmt /\
    config_or_default cfg !! "max_file_size" = Some rot /\
    config_or_default cfg !! "backup_count" = Some ret_ /\
    handlers st' = sinks_for d n fmt rot ret_ /\
    config g = config_or_default cfg.
Proof.
  unfold GestLogger__init__. intros H.
  apply bind_Ret_inv in H as (tr1 & st1 & [] & tr2 & H1 & H & ->).
  unfold ret in H. injection H as <- <- <-.
  apply _setup_logger_Ret_inv in H1
    as (d & lvl & n & fmt & rot & ret_ & ? & ? & ? & ? & ? & ? & ? & _).
  exists d, lvl, n, fmt, rot, ret_. repeat split; assumption.
Qed.

(** C9, as the code has it.  Once the global instance exists, a call of
    [setup_logger] with any configuration changes nothing: the sink set
    stays as the first configuration built it and nothing is emitted.
    Only constructing [GestLogger] again replaces the sink set: whatever
    the handler table was, after a successful construction it holds exactly
    the three sinks built from the configuration passed to it. *)
Theorem setup_logger_second_call_is_ignored w cfg st g :
  _logger_instance st = Some g ->
  setup_logger w cfg st = ([], st, Ret tt) /\
  (forall tr st' g',
     GestLogger__init__ w cfg st = (tr, st', Ret g') ->
     exists d lvl n fmt rot ret_,
       config_or_default cfg !! "log_dir" = Some (PStr d) /\
       config_or_default cfg !! "level" = Some lvl /\ levelno_of lvl = Some n /\
       config_or_default cfg !! "format" = Some fmt /\
       config_or_default cfg !! "max_file_size" = Some rot /\
       config_or_default cfg !! "backup_count" = Some ret_ /\
       handlers st' = sinks_for d n fmt rot ret_).
Proof.
  intros Hg. split; [now apply setup_logger_configured with g |].
  intros tr st' g' H.
  apply GestLogger__init__Ret_inv in H
    as (d & lvl & n & fmt & rot & ret_ & ? & ? & ? & ? & ? & ? & ? & _).
  exists d, lvl, n, fmt, rot, ret_. repeat split; assumption.
Qed.

Lemma setup_logger_second_call_is_ignored_witness :
  let w := calm ClickExit [] in
  let st := state_of (setup_logger w None initial_state) in
  _logger_instance st = Some (mkGestLogger _get_default_config) /\
  setup_logger w (Some debug_config) st = ([], st, Ret tt) /\
  handlers (state_of (GestLogger__init__ w (Some debug_config) st))
  = sinks_for "debug_logs" (level_no DEBUG)
      (PStr "{time:YYYY-MM-DD HH:mm:ss} | {level} | {name}:{function}:{line} | {message}")
      (PStr "10MB") (PInt 5).
Proof.
  intros w st.
  assert (Hg : _logger_instance st = Some (mkGestLogger _get_default_config))
    by (vm_compute; reflexivity).
  destruct (setup_logger_second_call_is_ignored w (Some debug_config) st _ Hg) as [H1 H2].
  split; [exact Hg |]. split; [exact H1 |].
  vm_compute. reflexivity.
Defined.

(** C9 as stated fails: after [setup_logger] with the default
    configuration, [setup_logger debug_config] leaves the sinks of the
    default configuration in place; they are not the sinks that
    [debug_config] describes. *)
Lemma setup_logger_reconfiguration_counterexample :
  let w := calm ClickExit [] in
  let twice := (setup_logger w (Some _get_default_config) ;;
                setup_logger w (Some debug_config)) initial_state in
  let fresh := setup_logger w (Some debug_config) initial_state in
  result_of twice = Ret tt /\ result_of fresh = Ret tt /\
  handlers (state_of twice)
  = handlers (state_of (setup_logger w (Some _get_default_config) initial_state)) /\
  handlers (state_of twice) <> handlers (state_of fresh).
Proof.
  repeat split; try (vm_compute; reflexivity).
  vm_compute. intros H. discriminate H.
Qed.

(** * Teardown *)

Lemma on_closing_outcome w st :
  teardown_calls_return w -> logger (self st) = Some tt ->
  on_closing w st =
    let head := logged (handlers st) INFO "Closing Gest application..."
                ++ release_calls (self st) in
    let n := length (release_calls (self st)) in
    match root (self st) with
    | None => (head, set_clock (n + clock st) st, Raise (no_attribute "root"))
    | Some None =>
        (head ++ logged (handlers st) INFO "Gest application closed",
         set_clock (n + clock st) st, Ret tt)
    | Some (Some _) =>
        (head ++ [Call tk_quit; Call tk_destroy]
              ++ logged (handlers st) INFO "Gest application closed",
         set_quit_requested true (set_clock (n + 2 + clock st) st), Ret tt)
    end.
Proof.
  intros (Hrel & Hquit & Hdestroy) Hlog.
  destruct st as [c gl hs a wm q]. simpl in Hlog.
  destruct a as [lg cm se cam det fp gc ae rt mg tw tg]. simpl in Hlog. subst lg.
  unfold on_closing, self_logger, getattr, hasattr, release_calls.
  destruct cam as [r1 |], det as [r2 |], rt as [[t |] |];
    cbv [bind ext log ret raise modify self logger camera_manager detection_engine root
         clock handlers set_clock set_quit_requested _logger_instance wm_delete_window
         quit_requested];
    rewrite ?Hrel, ?Hquit, ?Hdestroy; cbv beta iota;
    rewrite ?Hrel, ?Hquit, ?Hdestroy; cbv beta iota;
    rewrite ?Hrel, ?Hquit, ?Hdestroy; cbv beta iota;
    rewrite ?Hrel, ?Hquit, ?Hdestroy; cbv beta iota;
    simpl; rewrite ?app_nil_r, <- ?app_assoc; reflexivity.
Qed.

Lemma releases_app tr1 tr2 : releases (tr1 ++ tr2) = releases tr1 ++ releases tr2.
Proof. apply omap_app. Qed.

Lemma emitted_app tr1 tr2 : emitted (tr1 ++ tr2) = emitted tr1 ++ emitted tr2.
Proof. apply omap_app. Qed.

Lemma releases_logged hs l msg : releases (logged hs l msg) = [].
Proof.
  unfold logged. simpl. induction (List.filter (accepts l) hs) as [| h hs' IH]; auto.
Qed.

Lemma emitted_logged hs l msg : emitted (logged hs l msg) = [(l, msg)].
Proof.
  unfold logged. simpl. f_equal.
  induction (List.filter (accepts l) hs) as [| h hs' IH]; auto.
Qed.

Lemma releases_release_calls a :
  releases (release_calls a) = option_list (camera_manager a) ++ option_list (detection_engine a).
Proof.
  unfold release_calls.
  induction (option_list (camera_manager a) ++ option_list (detection_engine a)) as [| r rs IH];
    [reflexivity | simpl; now f_equal].
Qed.

Lemma emitted_release_calls a : emitted (release_calls a) = [].
Proof.
  unfold release_calls.
  induction (option_list (camera_manager a) ++ option_list (detection_engine a)) as [| r rs IH];
    [reflexivity | exact IH].
Qed.

Lemma releases_quit_destroy : releases [Call tk_quit; Call tk_destroy] = [].
Proof. reflexivity. Qed.

Lemma emitted_quit_destroy : emitted [Call tk_quit; Call tk_destroy] = [].
Proof. reflexivity. Qed.

Create Rewrite HintDb trace.
#[global] Hint Rewrite releases_app emitted_app releases_logged emitted_logged
  releases_release_calls emitted_release_calls releases_quit_destroy emitted_quit_destroy
  app_nil_r app_nil_l : trace.

Lemma on_closing_without_logger w st :
  logger (self st) = None -> on_closing w st = ([], st, Raise (no_attribute "logger")).
Proof.
  intros H. unfold on_closing, self_logger, bind, getattr. rewrite H. reflexivity.
Qed.

(** C2, as the code has it.  [on_closing] keeps no record of having run:
    on an application whose logger and root attributes are set, and with
    collaborators whose release, quit and destroy calls return, two
    consecutive calls make two full passes.  Every resource that one call
    releases is released twice, and the opening and the final record are
    each emitted twice. *)
Theorem on_closing_twice_tears_down_twice w st :
  teardown_calls_return w ->
  logger (self st) = Some tt ->
  root (self st) <> None ->
  let o := (on_closing w ;; on_closing w) st in
  let rs := option_list (camera_manager (self st)) ++ option_list (detection_engine (self st)) in
  result_of o = Ret tt /\
  releases (trace_of o) = rs ++ rs /\
  emitted (trace_of o)
  = [(INFO, "Closing Gest application..."); (INFO, "Gest application closed");
     (INFO, "Closing Gest application..."); (INFO, "Gest application closed")].
Proof.
  intros Hw Hlog Hroot o rs. subst o. unfold bind.
  rewrite (on_closing_outcome w st Hw Hlog).
  destruct (root (self st)) as [[t |] |] eqn:Hrt; [| | now destruct Hroot];
    cbv beta iota zeta;
    rewrite (on_closing_outcome w _ Hw) by exact Hlog;
    cbn [self handlers set_quit_requested set_clock]; rewrite Hrt;
    cbn [trace_of result_of fst snd];
    (split; [reflexivity |]);
    split; autorewrite with trace; reflexivity.
Qed.

(** * Worlds fixed by their hypotheses *)

Lemma all_calls_return_world w :
  all_calls_return w ->
  w = mkWorld (fun _ _ => None) (w_window_title w) (w_window_size w) (w_dialog w)
        (w_children w) (w_gui w).
Proof.
  destruct w as [wc wt ws wd wn wg]. unfold all_calls_return. simpl. intros H.
  f_equal. extensionality t. extensionality c. apply H.
Qed.

Lemma only_raising_world w c e :
  only_raising w c e ->
  w = mkWorld (fun _ c' => if bool_decide (c' = c) then Some e else None)
        (w_window_title w) (w_window_size w) (w_dialog w) (w_children w) (w_gui w).
Proof.
  destruct w as [wc wt ws wd wn wg]. unfold only_raising. simpl. intros H.
  f_equal. extensionality t. extensionality c'. apply H.
Qed.

(** * C1: what the teardown releases *)




(** C2 as stated fails: on the application left by a successful
    initialisation, a second [on_closing] releases the camera manager and
    the detection engine again and emits the final record again. *)
Lemma shutdown_idempotence_counterexample :
  let w := calm ClickExit [] in
  let st := state_of (GestApplication__init__ w initial_state) in
  let once := trace_of (on_closing w st) in
  let twice := trace_of ((on_closing w ;; on_closing w) st) in
  releases once = [CameraManager; DetectionEngine] /\
  releases twice = [CameraManager; DetectionEngine; CameraManager; DetectionEngine] /\
  emitted twice = emitted once ++ emitted once /\
  twice <> once.
Proof.
  vm_compute. repeat split; try reflexivity. intros H. discriminate H.
Qed.

Lemma on_closing_twice_tears_down_twice_witness :
  let w := calm ClickExit [] in
  let st := state_of (GestApplication__init__ w initial_state) in
  let o := (on_closing w ;; on_closing w) st in
  result_of o = Ret tt /\
  releases (trace_of o)
  = [CameraManager; DetectionEngine] ++ [CameraManager; DetectionEngine] /\
  emitted (trace_of o)
  = [(INFO, "Closing Gest application..."); (INFO, "Gest application closed");
     (INFO, "Closing Gest application..."); (INFO, "Gest application closed")].
Proof.
  intros w st.
  apply (on_closing_twice_tears_down_twice w st).
  - repeat split; reflexivity.
  - reflexivity.
  - discriminate.
Defined.

(** * C10: [on_closing] on a partially initialised application *)



(** * The entry point *)

(** How [main] ends, from how its [try] block ends. *)
Lemma main_outcome w d st :
  main w d st =
    let body := main_body w d st in
    match result_of body with
    | Ret a =>
        (trace_of body ++ [Print "Gest application terminated"], state_of body, Ret a)
    | Raise KeyboardInterrupt =>
        (trace_of body ++ [Print (newline +:+ "Application interrupted by user");
                           Print "Gest application terminated"],
         state_of body, Ret tt)
    | Raise (Exception cls msg) =>
        (trace_of body ++ [Print ("Application error: " +:+ msg); PrintTraceback;
                           Print "Gest application terminated"],
         state_of body, Ret tt)
    | Raise e => (trace_of body ++ [Print "Gest application terminated"], state_of body, Raise e)
    | Hang => (trace_of body, state_of body, Hang)
    end.
Proof.
  unfold main, try_finally, try_except.
  destruct (main_body w d st) as [[tr st1] [a | [| code | cls msg | cls msg] |]];
    cbn; rewrite <- ?app_assoc; reflexivity.
Qed.


Lemma destroy_widgets_returns w n :
  all_calls_return w ->
  destroy_widgets w n
  = fun st => (repeat (Call (tk "widget.destroy")) n, set_clock (n + clock st) st, Ret tt).
Proof.
  intros H. extensionality st. revert st.
  induction n as [| n IH]; intros st.
  - destruct st. reflexivity.
  - simpl. unfold bind, ext. rewrite H, IH. destruct st. simpl.
    now rewrite Nat.add_succ_r.
Qed.

(** Replace a world whose calls all return by its explicit form. *)
Ltac calm_world w H :=
  rewrite (all_calls_return_world w H) in *;
  generalize (w_window_title w) (w_window_size w) (w_dialog w) (w_children w) (w_gui w);
  clear H; clear w.

Ltac raising_world w H :=
  rewrite (only_raising_world w _ _ H) in *;
  generalize (w_window_title w) (w_window_size w) (w_dialog w) (w_children w) (w_gui w);
  clear H; clear w.

Ltac unfold_run :=
  unfold main, main_body, run, decorated, run_body, run_trainer_mode; cbn [w_children];
  rewrite ?destroy_widgets_returns by (intros ? ?; reflexivity).


(** * C7: cancelled mode selection *)

(** C7.  When every collaborator call returns and the start-up dialog
    yields "exit" (the Exit button, or the dialog dismissed), the event
    loop is never started, [on_closing] runs to its end (both releases, the
    two records), nothing is reported as an error, [main] returns and the
    exit status is 0. *)
Theorem cancelled_selection_skips_event_loop w d :
  all_calls_return w ->
  w_dialog w <> ClickTrainer ->
  let o := main w d initial_state in
  ~ In (Call tk_mainloop) (trace_of o) /\
  releases (trace_of o) = [CameraManager; DetectionEngine] /\
  emitted (trace_of o)
  = [(INFO, "Logger initialized successfully");
     (INFO, "Starting Gest Application...");
     (INFO, "Configuration loaded successfully");
     (INFO, "Gest application initialized successfully");
     (INFO, "Starting Gest application...");
     (INFO, "Main window created: " +:+ w_window_title w);
     (INFO, "Closing Gest application...");
     (INFO, "Gest application closed")] /\
  printed (trace_of o) = ["Gest application terminated"] /\
  result_of o = Ret tt /\
  exit_status (result_of o) = Some 0.
Proof.
  intros H Hd o. subst o. revert Hd. calm_world w H.
  intros title size dlg n evs Hd. simpl in Hd.
  destruct dlg; [now destruct Hd | |];
    (split; [rewrite <- list_elem_of_In; apply (bool_decide_eq_false_1 _);
             vm_compute; reflexivity |]);
    vm_compute; auto 10.
Qed.

Lemma cancelled_selection_skips_event_loop_witness :
  let o := main (calm Dismiss []) handle_exceptions initial_state in
  ~ In (Call tk_mainloop) (trace_of o) /\
  releases (trace_of o) = [CameraManager; DetectionEngine] /\
  emitted (trace_of o)
  = [(INFO, "Logger initialized successfully");
     (INFO, "Starting Gest Application...");
     (INFO, "Configuration loaded successfully");
     (INFO, "Gest application initialized successfully");
     (INFO, "Starting Gest application...");
     (INFO, "Main window created: Gest - Gesture Recognition");
     (INFO, "Closing Gest application...");
     (INFO, "Gest application closed")] /\
  printed (trace_of o) = ["Gest application terminated"] /\
  result_of o = Ret tt /\
  exit_status (result_of o) = Some 0.
Proof.
  apply (cancelled_selection_skips_event_loop (calm Dismiss []) handle_exceptions).
  - intros t c. reflexivity.
  - discriminate.
Defined.

(** * C3: window close and interrupt *)




(** * C5: exceptions at the entry point *)

Lemma main_catches_Exception w d st cls msg :
  result_of (main_body w d st) = Raise (Exception cls msg) ->
  main w d st
  = (trace_of (main_body w d st)
     ++ [Print ("Application error: " +:+ msg); PrintTraceback;
         Print "Gest application terminated"],
     state_of (main_body w d st), Ret tt).
Proof. intros H. rewrite main_outcome. cbv zeta. now rewrite H. Qed.

(** C5, as the code has it.  An exception of class Exception that leaves
    the [try] block of [main], raised during acquisition or escaping
    [run], is caught there and never reaches the caller: [main] prints
    "Application error: <message>" and a traceback, prints its final line
    and returns.  [main] reports it on standard output only: the log
    records of the run are those emitted before the exception, none is
    added for the failure.  In particular, when the acquisition of any
    resource raises such an exception, the log holds the three Info records
    of the start-up and nothing about the failure. *)
Theorem exception_is_caught_and_printed w d :
  (forall st cls msg,
     result_of (main_body w d st) = Raise (Exception cls msg) ->
     let o := main w d st in
     result_of o = Ret tt /\
     trace_of o = trace_of (main_body w d st)
                  ++ [Print ("Application error: " +:+ msg); PrintTraceback;
                      Print "Gest application terminated"] /\
     emitted (trace_of o) = emitted (trace_of (main_body w d st))) /\
  (forall r cls msg,
     only_raising w (acquire r) (Exception cls msg) ->
     let o := main w d initial_state in
     result_of o = Ret tt /\
     printed (trace_of o) = ["Application error: " +:+ msg; "Gest application terminated"] /\
     emitted (trace_of o)
     = [(INFO, "Logger initialized successfully"); (INFO, "Starting Gest Application...");
        (INFO, "Configuration loaded successfully")]).
Proof.
  split.
  - intros st cls msg H o. subst o. rewrite (main_catches_Exception w d st cls msg H).
    unfold result_of, trace_of. cbn [fst snd]. repeat split.
    rewrite emitted_app. cbn. now rewrite app_nil_r.
  - intros r cls msg H. raising_world w H. intros title size dlg n evs.
    destruct r; vm_compute; auto.
Qed.

Lemma exception_is_caught_and_printed_witness :
  let w := failing (acquire CameraManager) (Exception "RuntimeError" "camera not found")
             ClickExit [] in
  let o := main w handle_exceptions initial_state in
  result_of (main_body w handle_exceptions initial_state)
  = Raise (Exception "RuntimeError" "camera not found") /\
  result_of o = Ret tt /\
  trace_of o = trace_of (main_body w handle_exceptions initial_state)
               ++ [Print "Application error: camera not found"; PrintTraceback;
                   Print "Gest application terminated"] /\
  printed (trace_of o) = ["Application error: camera not found"; "Gest application terminated"] /\
  emitted (trace_of o)
  = [(INFO, "Logger initialized successfully"); (INFO, "Starting Gest Application...");
     (INFO, "Configuration loaded successfully")].
Proof.
  intros w o.
  assert (Hbody : result_of (main_body w handle_exceptions initial_state)
                  = Raise (Exception "RuntimeError" "camera not found"))
    by (vm_compute; reflexivity).
  destruct (exception_is_caught_and_printed w handle_exceptions) as [Hcatch Hacq].
  destruct (Hcatch initial_state "RuntimeError" "camera not found" Hbody) as (H1 & H2 & _).
  destruct (Hacq CameraManager "RuntimeError" "camera not found") as (_ & H4 & H5).
  - intros t c. reflexivity.
  - split; [exact Hbody |]. split; [exact H1 |]. split; [exact H2 |].
    split; [exact H4 | exact H5].
Defined.

(** C5 as stated fails: when the acquisition of the camera manager raises,
    no log record carries the failure.  The only records are the three
    Info records of the start-up, emitted before the failing call. *)
Lemma acquisition_failure_is_not_logged_counterexample :
  let w := failing (acquire CameraManager) (Exception "RuntimeError" "camera not found")
             ClickExit [] in
  let o := main w handle_exceptions initial_state in
  emitted (trace_of o)
  = [(INFO, "Logger initialized successfully"); (INFO, "Starting Gest Application...");
     (INFO, "Configuration loaded successfully")] /\
  (forall l m, In (l, m) (emitted (trace_of o)) -> l = INFO) /\
  printed (trace_of o) = ["Application error: camera not found"; "Gest application terminated"].
Proof.
  vm_compute. repeat split.
  intros l m H. repeat (destruct H as [H | H]; [now injection H |]). destruct H.
Qed.

(** * C4: the exit status *)

(** C4, as the code has it.  The exit status is 0 when the run ends
    normally (mode selection cancelled, or the main window closed while
    the trainer mode runs).  It is 1 when loading the configuration fails:
    [__init__] then calls [sys.exit(1)].  It is 0 as well when an
    acquisition fails with an exception of class Exception, and whenever
    such an exception leaves [run]: [main] catches it and returns.  When
    the body of [run] raises an exception of class Exception, the status
    is 0 if the decorator of [run] does not catch it (it reaches [main]),
    and 0 if the decorator catches it and its handler returns or raises
    an Exception or a KeyboardInterrupt in turn; it is not 0 only when
    the handler of the decorator ends the process itself, and then the
    status is the handler's.  With [handle_exceptions] as the spec
    describes it, the status is 0. *)
Theorem exit_status_by_cause w d :
  (all_calls_return w ->
   w_dialog w <> ClickTrainer \/ (exists rest, w_gui w = WmDeleteWindow :: rest) ->
   exit_status (result_of (main w d initial_state)) = Some 0) /\
  (forall c cls msg,
     c = get_config_manager \/ c = load_settings ->
     only_raising w c (Exception cls msg) ->
     result_of (main w d initial_state) = Raise (SystemExit 1) /\
     exit_status (result_of (main w d initial_state)) = Some 1) /\
  (forall r cls msg,
     only_raising w (acquire r) (Exception cls msg) ->
     result_of (main w d initial_state) = Ret tt /\
     exit_status (result_of (main w d initial_state)) = Some 0) /\
  (forall st cls msg,
     result_of (main_body w d st) = Raise (Exception cls msg) ->
     exit_status (result_of (main w d st)) = Some 0) /\
  (forall st cls msg,
     result_of (GestApplication__init__ w st) = Ret tt ->
     let st0 := state_of (GestApplication__init__ w st) in
     result_of (run_body w st0) = Raise (Exception cls msg) ->
     exit_status (result_of (main w d st))
     = if catches d (Exception cls msg)
       then match result_of (on_catch d "run" (Exception cls msg)
                               (state_of (run_body w st0))) with
            | Raise (SystemExit code) => Some code
            | Raise (BaseException _ _) => Some 1
            | Hang => None
            | _ => Some 0
            end
       else Some 0) /\
  (forall st cls msg,
     result_of (GestApplication__init__ w st) = Ret tt ->
     let st0 := state_of (GestApplication__init__ w st) in
     result_of (run_body w st0) = Raise (Exception cls msg) ->
     exit_status (result_of (main w handle_exceptions st)) = Some 0).
Proof.
  assert (Hrun : forall w' d' st cls msg,
            result_of (GestApplication__init__ w' st) = Ret tt ->
            let st0 := state_of (GestApplication__init__ w' st) in
            result_of (run_body w' st0) = Raise (Exception cls msg) ->
            exit_status (result_of (main w' d' st))
            = if catches d' (Exception cls msg)
              then match result_of (on_catch d' "run" (Exception cls msg)
                                      (state_of (run_body w' st0))) with
                   | Raise (SystemExit code) => Some code
                   | Raise (BaseException _ _) => Some 1
                   | Hang => None
                   | _ => Some 0
                   end
              else Some 0).
  { intros w' d' st cls msg Hinit st0 Hrun. subst st0.
    rewrite main_outcome. cbv zeta.
    unfold main_body, run, decorated, try_except, bind.
    destruct (GestApplication__init__ w' st) as [[tr0 s0] r0].
    unfold result_of, state_of in Hinit, Hrun |- *. cbn [fst snd] in Hinit, Hrun |- *.
    subst r0.
    destruct (run_body w' s0) as [[tr1 s1] r1]. cbn [fst snd] in Hrun |- *. subst r1.
    destruct (catches d' (Exception cls msg)); [| reflexivity].
    destruct (on_catch d' "run" (Exception cls msg) s1)
      as [[tr2 s2] [[] | [| code | c m | c m] |]]; reflexivity. }
  split; [| split; [| split; [| split; [| split]]]].
  - intros H Hd. revert Hd. calm_world w H. intros title size dlg n evs Hd. simpl in Hd.
    destruct dlg; try reflexivity.
    destruct Hd as [Hd | [rest ->]]; [now destruct Hd |].
    unfold_run. vm_compute. reflexivity.
  - intros c cls msg [-> | ->] H; raising_world w H; intros title size dlg n evs;
      vm_compute; auto.
  - intros r cls msg H. raising_world w H. intros title size dlg n evs.
    destruct r; vm_compute; auto.
  - intros st cls msg H. now rewrite (main_catches_Exception w d st cls msg H).
  - intros st cls msg Hinit st0 Hr. now apply Hrun.
  - intros st cls msg Hinit st0 Hr.
    now rewrite (Hrun w handle_exceptions st cls msg Hinit Hr).
Qed.

Lemma exit_status_by_cause_witness :
  exit_status (result_of (main (calm ClickExit []) handle_exceptions initial_state)) = Some 0 /\
  exit_status (result_of (main (failing load_settings (Exception "ValueError" "bad settings")
                                  ClickExit []) handle_exceptions initial_state)) = Some 1 /\
  exit_status (result_of (main (failing (acquire DetectionEngine)
                                  (Exception "RuntimeError" "no engine") ClickExit [])
                            handle_exceptions initial_state)) = Some 0 /\
  exit_status (result_of (main (failing (tk "Tk") (Exception "TclError" "no display")
                                  ClickExit [])
                            handle_exceptions initial_state)) = Some 0 /\
  exit_status (result_of (main (failing (tk "Tk") (Exception "TclError" "no display")
                                  ClickExit [])
                            (mkDecorator is_Exception (fun _ _ => raise (SystemExit 2)))
                            initial_state)) = Some 2.
Proof.
  split; [| split; [| split; [| split]]];
    [| | |
     apply (proj2 (proj2 (proj2 (proj2 (proj2 (exit_status_by_cause
              (failing (tk "Tk") (Exception "TclError" "no display") ClickExit [])
              handle_exceptions))))) initial_state "TclError" "no display");
       vm_compute; reflexivity
     | rewrite (proj1 (proj2 (proj2 (proj2 (proj2 (exit_status_by_cause
                (failing (tk "Tk") (Exception "TclError" "no display") ClickExit [])
                (mkDecorator is_Exception (fun _ _ => raise (SystemExit 2)))))))) initial_state
                "TclError" "no display");
       vm_compute; reflexivity].
  - apply (proj1 (exit_status_by_cause (calm ClickExit []) handle_exceptions)).
    + intros t c. reflexivity.
    + left. discriminate.
  - apply (proj1 (proj2 (exit_status_by_cause
             (failing load_settings (Exception "ValueError" "bad settings") ClickExit [])
             handle_exceptions)) load_settings "ValueError" "bad settings").
    + now right.
    + intros t c. reflexivity.
  - apply (proj1 (proj2 (proj2 (exit_status_by_cause
             (failing (acquire DetectionEngine) (Exception "RuntimeError" "no engine")
                ClickExit [])
             handle_exceptions))) DetectionEngine "RuntimeError" "no engine").
    intros t c. reflexivity.
Defined.

(** C4 as stated fails: the acquisition of the camera manager raising is a
    fault, and the process still exits with status 0. *)
Lemma acquisition_fault_exit_status_counterexample :
  let w := failing (acquire CameraManager) (Exception "RuntimeError" "camera not found")
             ClickExit [] in
  result_of (GestApplication__init__ w initial_state)
  = Raise (Exception "RuntimeError" "camera not found") /\
  exit_status (result_of (main w handle_exceptions initial_state)) = Some 0.
Proof. vm_compute. split; reflexivity. Qed.

(** * C6: logging is configured first *)

Lemma setup_logger_Ret_inv w cfg st tr st' u :
  _logger_instance st = None ->
  setup_logger w cfg st = (tr, st', Ret u) ->
  exists d lvl n fmt rot ret_,
    config_or_default cfg !! "log_dir" = Some (PStr d) /\
    config_or_default cfg !! "level" = Some lvl /\ levelno_of lvl = Some n /\
    config_or_default cfg !! "format" = Some fmt /\
    config_or_default cfg !! "max_file_size" = Some rot /\
    config_or_default cfg !! "backup_count" = Some ret_ /\
    handlers st' = sinks_for d n fmt rot ret_ /\
    _logger_instance st' = Some (mkGestLogger (config_or_default cfg)) /\
    emitted tr = [(INFO, "Logger initialized successfully")].
Proof.
  intros Hnone H. unfold setup_logger in H.
  apply bind_Ret_inv in H as (tr0 & st0 & s & tr1 & H0 & H & ->).
  unfold get_state in H0. injection H0 as <- <- <-. rewrite Hnone in H.
  apply bind_Ret_inv in H as (tr2 & st2 & g & tr3 & H2 & H & ->).
  unfold modify in H. injection H as <- <-.
  unfold GestLogger__init__ in H2.
  apply bind_Ret_inv in H2 as (tr4 & st4 & [] & tr5 & H4 & H2 & ->).
  unfold ret in H2. injection H2 as <- <- <-.
  apply _setup_logger_Ret_inv in H4
    as (d & lvl & n & fmt & rot & ret_ & ? & ? & ? & ? & ? & ? & Hh & _ & _ & ->).
  exists d, lvl, n, fmt, rot, ret_. repeat split; try assumption.
  cbn [app emitted omap]. autorewrite with trace.
  change (emitted (logged (sinks_for d n fmt rot ret_) INFO "Logger initialized successfully")
          = [(INFO, "Logger initialized successfully")]).
  apply emitted_logged.
Qed.




(** * Further properties of the code *)

(** ** Attributes are left alone *)

Lemma keeps_bind {A B X} (g : state -> X) (m : M A) (f : A -> M B) :
  keeps g m -> (forall a, keeps g (f a)) -> keeps g (bind m f).
Proof.
  intros Hm Hf st. unfold bind. specialize (Hm st).
  destruct (m st) as [[tr st1] [a | e |]]; try exact Hm.
  specialize (Hf a st1). destruct (f a st1) as [[tr2 st2] r].
  unfold state_of in *. simpl in *. congruence.
Qed.

Lemma keeps_attributes_bind {A B} (m : M A) (f : A -> M B) :
  keeps_attributes m -> (forall a, keeps_attributes (f a)) -> keeps_attributes (bind m f).
Proof. apply keeps_bind. Qed.

Lemma keeps_attributes_ret {A} (a : A) : keeps_attributes (ret a).
Proof. intros st. reflexivity. Qed.

Lemma keeps_attributes_log l msg : keeps_attributes (log l msg).
Proof. intros st. reflexivity. Qed.

Lemma keeps_attributes_getattr {A} name (field : GestApplication -> option A) :
  keeps_attributes (getattr name field).
Proof. intros st. unfold getattr. now destruct (field (self st)). Qed.

Lemma keeps_attributes_self_logger l msg : keeps_attributes (self_logger l msg).
Proof.
  apply keeps_attributes_bind; [apply keeps_attributes_getattr |].
  intros _. apply keeps_attributes_log.
Qed.

Lemma self_logger_returns l msg st :
  logger (self st) = Some tt ->
  self_logger l msg st = (logged (handlers st) l msg, st, Ret tt).
Proof. intros H. unfold self_logger, bind, getattr, log. now rewrite H. Qed.

Lemma try_except_Ret_inv {A} (m : M A) h st tr st' a :
  try_except m h st = (tr, st', Ret a) ->
  m st = (tr, st', Ret a) \/
  exists tr1 st1 e k tr2,
    m st = (tr1, st1, Raise e) /\ h e = Some k /\
    k st1 = (tr2, st', Ret a) /\ tr = tr1 ++ tr2.
Proof.
  unfold try_except. destruct (m st) as [[tr1 st1] [a1 | e |]]; intros H.
  - left. exact H.
  - right. destruct (h e) as [k |] eqn:Hh; [| discriminate].
    destruct (k st1) as [[tr2 st2] r] eqn:Hk. injection H as <- <- ->.
    exists tr1, st1, e, k, tr2. repeat split; auto.
  - discriminate.
Qed.

(** ** [initialize_camera] *)

Lemma initialize_camera_try_keeps_attributes (ci : M bool) (cg : M string) :
  keeps_attributes ci -> keeps_attributes cg ->
  keeps_attributes
    (self_logger INFO "Initializing camera system..." ;;
     _ <- getattr "camera_manager" camera_manager ;;
     success <- ci ;;
     (if success
      then
        _ <- getattr "camera_manager" camera_manager ;;
        camera_info <- cg ;;
        self_logger INFO ("Camera initialized: " +:+ camera_info)
      else self_logger ERROR "Failed to initialize camera") ;;
     ret success).
Proof.
  intros Hci Hcg.
  apply keeps_attributes_bind; [apply keeps_attributes_self_logger | intros _].
  apply keeps_attributes_bind; [apply keeps_attributes_getattr | intros _].
  apply keeps_attributes_bind; [exact Hci | intros success].
  apply keeps_attributes_bind; [| intros _; apply keeps_attributes_ret].
  destruct success; [| apply keeps_attributes_self_logger].
  apply keeps_attributes_bind; [apply keeps_attributes_getattr | intros _].
  apply keeps_attributes_bind; [exact Hcg | intros info].
  apply keeps_attributes_self_logger.
Qed.

(** X1.  Whatever the camera manager does, as long as it leaves the
    attributes of the application alone and the logger attribute is set,
    [initialize_camera] lets no exception of class Exception out of its
    body: such an exception, raised by the camera manager or by a missing
    [camera_manager] attribute, is turned into the result [False].  When
    it is [camera_manager.initialize_camera()] that raises it, the Error
    record "Camera initialization error: <message>" is emitted.  A body
    that returns makes the decorated method return the same flag. *)
Theorem initialize_camera_swallows_Exception (d : decorator) (ci : M bool) (cg : M string) st :
  keeps_attributes ci ->
  keeps_attributes cg ->
  logger (self st) = Some tt ->
  (forall cls msg, result_of (initialize_camera_body ci cg st) <> Raise (Exception cls msg)) /\
  (forall tr1 st1 cls msg,
     camera_manager (self st) <> None ->
     ci st = (tr1, st1, Raise (Exception cls msg)) ->
     initialize_camera_body ci cg st
     = (logged (handlers st) INFO "Initializing camera system..." ++ tr1
        ++ logged (handlers st1) ERROR ("Camera initialization error: " +:+ msg),
        st1, Ret false)) /\
  (forall b, result_of (initialize_camera_body ci cg st) = Ret b ->
             result_of (initialize_camera d ci cg st) = Ret (Some b)).
Proof.
  intros Hci Hcg Hlog. split; [| split].
  - intros cls msg. unfold initialize_camera_body, try_except.
    pose proof (initialize_camera_try_keeps_attributes ci cg Hci Hcg st) as Hkeep.
    match goal with
    | |- context [match ?m st with _ => _ end] =>
        change (self (state_of (m st)) = self st) in Hkeep;
        destruct (m st) as [[tr st1] [b | e |]]
    end; try discriminate.
    unfold state_of in Hkeep. simpl in Hkeep.
    destruct e; try discriminate.
    unfold bind. rewrite self_logger_returns by (rewrite Hkeep; exact Hlog).
    discriminate.
  - intros tr1 st1 cls msg Hcam Hraise.
    destruct (camera_manager (self st)) as [r |] eqn:Hr; [| now destruct Hcam].
    pose proof (Hci st) as Hself. rewrite Hraise in Hself.
    unfold state_of in Hself. simpl in Hself.
    unfold initialize_camera_body, try_except, bind.
    rewrite (self_logger_returns INFO _ st Hlog).
    unfold getattr at 1. rewrite Hr, Hraise.
    rewrite self_logger_returns by (rewrite Hself; exact Hlog).
    unfold ret. cbn [app str]. now rewrite app_nil_r, <- app_assoc.
  - intros b Hb. unfold initialize_camera, decorated, try_except, bind.
    destruct (initialize_camera_body ci cg st) as [[tr st1] r].
    unfold result_of in Hb. simpl in Hb. subst r. reflexivity.
Qed.

(** A camera manager whose [initialize_camera] raises. *)
Lemma initialize_camera_swallows_Exception_witness :
  let ci : M bool := raise (Exception "RuntimeError" "device busy") in
  let cg : M string := ret "camera 0" in
  let st := state_of (GestApplication__init__ (calm ClickExit []) initial_state) in
  emitted (trace_of (initialize_camera_body ci cg st))
  = [(INFO, "Initializing camera system...");
     (ERROR, "Camera initialization error: device busy")] /\
  result_of (initialize_camera handle_exceptions ci cg st) = Ret (Some false).
Proof.
  intros ci cg st.
  destruct (initialize_camera_swallows_Exception handle_exceptions ci cg st)
    as (_ & Hraise & Hdeco).
  - intros s. reflexivity.
  - intros s. reflexivity.
  - reflexivity.
  - split.
    + rewrite (Hraise [] st "RuntimeError" "device busy"); [reflexivity | discriminate | reflexivity].
    + apply Hdeco. reflexivity.
Defined.

(** X2.  With the logger and camera-manager attributes set and a camera
    manager that leaves the attributes alone, [initialize_camera] answers
    [True] exactly when [camera_manager.initialize_camera()] returned
    [True] and [get_camera_info()] returned as well.  A [False] from the
    camera manager is passed on with the Error record "Failed to initialize
    camera", without asking for the camera information; and when the
    camera was initialised but [get_camera_info()] raises an Exception, the
    answer is [False] all the same. *)
Theorem initialize_camera_result (ci : M bool) (cg : M string) st :
  logger (self st) = Some tt ->
  camera_manager (self st) <> None ->
  keeps_attributes ci ->
  keeps_attributes cg ->
  (result_of (initialize_camera_body ci cg st) = Ret true <->
   exists tr1 st1 tr2 st2 info,
     ci st = (tr1, st1, Ret true) /\ cg st1 = (tr2, st2, Ret info)) /\
  (forall tr1 st1,
     ci st = (tr1, st1, Ret false) ->
     initialize_camera_body ci cg st
     = (logged (handlers st) INFO "Initializing camera system..." ++ tr1
        ++ logged (handlers st1) ERROR "Failed to initialize camera",
        st1, Ret false)) /\
  (forall tr1 st1 tr2 st2 cls msg,
     ci st = (tr1, st1, Ret true) ->
     cg st1 = (tr2, st2, Raise (Exception cls msg)) ->
     result_of (initialize_camera_body ci cg st) = Ret false).
Proof.
  intros Hlog Hcam Hci Hcg.
  destruct (camera_manager (self st)) as [r |] eqn:Hr; [clear Hcam | now destruct Hcam].
  assert (Hstart : forall st1 tr1 b, ci st = (tr1, st1, b) ->
            logger (self st1) = Some tt /\ camera_manager (self st1) = Some r).
  { intros st1 tr1 b Hrun. pose proof (Hci st) as Hself. rewrite Hrun in Hself.
    unfold state_of in Hself. simpl in Hself. rewrite Hself. auto. }
  split; [split |split].
  - intros Hres.
    destruct (initialize_camera_body ci cg st) as [[tr st'] res] eqn:Hbody.
    unfold result_of in Hres. simpl in Hres. subst res.
    unfold initialize_camera_body in Hbody.
    apply try_except_Ret_inv in Hbody as [Hbody | (tr1 & st1 & e & k & tr2 & _ & Hk & Hrun & _)].
    + apply bind_Ret_inv in Hbody as (t0 & s0 & [] & t0' & H0 & Hbody & _).
      rewrite (self_logger_returns _ _ st Hlog) in H0. injection H0 as _ <-.
      apply bind_Ret_inv in Hbody as (ta & sa & ra & ta' & H1 & Hbody & _).
      unfold getattr in H1. rewrite Hr in H1. injection H1 as _ <- _.
      apply bind_Ret_inv in Hbody as (tr1 & st1 & b & tb & Hrun & Hbody & _).
      apply bind_Ret_inv in Hbody as (tc & st3 & [] & tc' & Hbranch & Hret & _).
      unfold ret in Hret. injection Hret as _ _ Hb. subst b. cbv iota in Hbranch.
      apply bind_Ret_inv in Hbranch as (td & sd & rd & td' & H2 & Hbranch & _).
      destruct (Hstart _ _ _ Hrun) as [_ Hcam1].
      unfold getattr in H2. rewrite Hcam1 in H2. injection H2 as _ <- _.
      apply bind_Ret_inv in Hbranch as (tr2 & st2 & info & te & Hinfo & _ & _).
      exists tr1, st1, tr2, st2, info. auto.
    + destruct e; try discriminate. injection Hk as <-.
      apply bind_Ret_inv in Hrun as (? & ? & [] & ? & _ & Hret & _).
      discriminate Hret.
  - intros (tr1 & st1 & tr2 & st2 & info & Hrun & Hinfo).
    destruct (Hstart _ _ _ Hrun) as [Hlog1 Hcam1].
    assert (Hlog2 : logger (self st2) = Some tt).
    { pose proof (Hcg st1) as Hself. rewrite Hinfo in Hself.
      unfold state_of in Hself. simpl in Hself. now rewrite Hself. }
    unfold initialize_camera_body, try_except, bind.
    rewrite (self_logger_returns INFO _ st Hlog).
    unfold getattr at 1. rewrite Hr, Hrun.
    unfold getattr at 1. rewrite Hcam1, Hinfo.
    rewrite (self_logger_returns INFO _ st2 Hlog2). reflexivity.
  - intros tr1 st1 Hrun. destruct (Hstart _ _ _ Hrun) as [Hlog1 _].
    unfold initialize_camera_body, try_except, bind.
    rewrite (self_logger_returns INFO _ st Hlog).
    unfold getattr at 1. rewrite Hr, Hrun.
    rewrite (self_logger_returns ERROR _ st1 Hlog1).
    unfold ret. cbn [app]. now rewrite app_nil_r.
  - intros tr1 st1 tr2 st2 cls msg Hrun Hinfo.
    destruct (Hstart _ _ _ Hrun) as [Hlog1 Hcam1].
    assert (Hlog2 : logger (self st2) = Some tt).
    { pose proof (Hcg st1) as Hself. rewrite Hinfo in Hself.
      unfold state_of in Hself. simpl in Hself. now rewrite Hself. }
    unfold initialize_camera_body, try_except, bind.
    rewrite (self_logger_returns INFO _ st Hlog).
    unfold getattr at 1. rewrite Hr, Hrun.
    unfold getattr at 1. rewrite Hcam1, Hinfo.
    rewrite (self_logger_returns ERROR _ st2 Hlog2). reflexivity.
Qed.

(** A camera that opens but cannot describe itself. *)
Lemma initialize_camera_result_witness :
  let ci : M bool := ret true in
  let cg : M string := raise (Exception "RuntimeError" "no driver information") in
  let st := state_of (GestApplication__init__ (calm ClickExit []) initial_state) in
  result_of (initialize_camera_body ci cg st) = Ret false /\
  result_of (initialize_camera_body ci (ret "camera 0") st) = Ret true.
Proof.
  intros ci cg st. split.
  - destruct (initialize_camera_result ci cg st) as (_ & _ & Hinfo).
    + reflexivity.
    + discriminate.
    + intros s. reflexivity.
    + intros s. reflexivity.
    + apply (Hinfo [] st [] st "RuntimeError" "no driver information"); reflexivity.
  - destruct (initialize_camera_result ci (ret "camera 0") st) as (Htrue & _ & _).
    + reflexivity.
    + discriminate.
    + intros s. reflexivity.
    + intros s. reflexivity.
    + apply Htrue. exists [], st, [], st, "camera 0". split; reflexivity.
Defined.

(** ** [on_closing]: failures and invariants *)

Lemma on_closing_camera_release_raises w st r e :
  logger (self st) = Some tt ->
  camera_manager (self st) = Some r ->
  w_call w (clock st) (release r) = Some e ->
  on_closing w st
  = (logged (handlers st) INFO "Closing Gest application..." ++ [Call (release r)],
     set_clock (S (clock st)) st, Raise e).
Proof.
  intros Hlog Hcam Hcall. unfold on_closing, bind.
  rewrite (self_logger_returns _ _ st Hlog).
  unfold hasattr at 1. rewrite Hcam. unfold getattr at 1. rewrite Hcam.
  unfold ext at 1. rewrite Hcall. reflexivity.
Qed.

(** X3.  The teardown is not best-effort.  When the release of the camera
    manager raises, [on_closing] ends there with that exception: the
    detection engine is not released, the window is neither quit nor
    destroyed, and the final record is not emitted. *)
Theorem on_closing_stops_at_failing_release w st r e :
  logger (self st) = Some tt ->
  camera_manager (self st) = Some r ->
  w_call w (clock st) (release r) = Some e ->
  let o := on_closing w st in
  result_of o = Raise e /\
  releases (trace_of o) = [r] /\
  emitted (trace_of o) = [(INFO, "Closing Gest application...")] /\
  (forall c, In (Call c) (trace_of o) -> c = release r) /\
  quit_requested (state_of o) = quit_requested st.
Proof.
  intros Hlog Hcam Hcall o. subst o.
  rewrite (on_closing_camera_release_raises w st r e Hlog Hcam Hcall).
  unfold result_of, trace_of, state_of. cbn [fst snd].
  split; [reflexivity |]. split; [| split; [| split]].
  - rewrite releases_app, releases_logged. reflexivity.
  - rewrite emitted_app, emitted_logged. reflexivity.
  - intros c Hin. apply in_app_or in Hin as [Hin | [Hin | []]].
    + unfold logged in Hin. destruct Hin as [Hin | Hin]; [discriminate |].
      apply in_map_iff in Hin as (h & Hh & _). discriminate.
    + now injection Hin as <-.
  - reflexivity.
Qed.

Lemma on_closing_stops_at_failing_release_witness :
  let w := failing (release CameraManager) (Exception "RuntimeError" "camera busy")
             ClickExit [] in
  let st := state_of (GestApplication__init__ (calm ClickExit []) initial_state) in
  let o := on_closing w st in
  result_of o = Raise (Exception "RuntimeError" "camera busy") /\
  releases (trace_of o) = [CameraManager] /\
  emitted (trace_of o) = [(INFO, "Closing Gest application...")] /\
  (forall c, In (Call c) (trace_of o) -> c = release CameraManager) /\
  quit_requested (state_of o) = quit_requested st.
Proof.
  intros w st.
  apply (on_closing_stops_at_failing_release w st CameraManager
           (Exception "RuntimeError" "camera busy")); reflexivity.
Defined.


(** ** The event loop when a release fails *)

Lemma dispatch_close_with_failing_release w st r e rest :
  logger (self st) = Some tt ->
  camera_manager (self st) = Some r ->
  wm_delete_window st = Some cb_on_closing ->
  quit_requested st = false ->
  w_call w (clock st) (release r) = Some e ->
  (forall code, e <> SystemExit code) ->
  dispatch w (WmDeleteWindow :: rest) st
  = let '(tr, st', res) := dispatch w rest (set_clock (S (clock st)) st) in
    ((logged (handlers st) INFO "Closing Gest application..."
      ++ [Call (release r); PrintTraceback]) ++ tr, st', res).
Proof.
  intros Hlog Hcam Hwm Hquit Hcall Hexit.
  cbn [dispatch]. unfold bind at 1. unfold get_state at 1. rewrite Hwm.
  unfold bind at 1. unfold run_callback, tk_callback, try_except.
  rewrite (on_closing_camera_release_raises w st r e Hlog Hcam Hcall).
  destruct e as [| code | cls msg | cls msg];
    try (now destruct (Hexit code));
    unfold tell, bind, get_state; cbn [quit_requested set_clock];
    rewrite Hquit;
    destruct (dispatch w rest (set_clock (S (clock st)) st)) as [[tr st'] res];
    cbn [app]; rewrite <- ?app_assoc; reflexivity.
Qed.

(** X5.  A camera manager whose [release] always raises (anything but
    SystemExit) makes the main window impossible to close.  Tk swallows
    the exception of the close handler, [root.quit()] is never reached, and
    so however often the user closes the window the event loop keeps
    waiting: every attempt releases the camera manager again and nothing
    else is called; the window is never destroyed. *)
Theorem window_cannot_be_closed_when_release_fails w r e n : forall st,
  logger (self st) = Some tt ->
  camera_manager (self st) = Some r ->
  wm_delete_window st = Some cb_on_closing ->
  quit_requested st = false ->
  (forall t, w_call w t (release r) = Some e) ->
  (forall code, e <> SystemExit code) ->
  let o := dispatch w (repeat WmDeleteWindow n) st in
  result_of o = Hang /\
  releases (trace_of o) = repeat r n /\
  (forall c, In (Call c) (trace_of o) -> c = release r) /\
  quit_requested (state_of o) = false.
Proof.
  induction n as [| n IH]; intros st Hlog Hcam Hwm Hquit Hcall Hexit.
  - cbn. repeat split; auto. intros c [].
  - cbn [repeat].
    rewrite (dispatch_close_with_failing_release w st r e _ Hlog Hcam Hwm Hquit
               (Hcall (clock st)) Hexit).
    specialize (IH (set_clock (S (clock st)) st) Hlog Hcam Hwm Hquit Hcall Hexit).
    cbv zeta in IH.
    destruct (dispatch w (repeat WmDeleteWindow n) (set_clock (S (clock st)) st))
      as [[tr st'] res].
    unfold result_of, trace_of, state_of in *. cbn [fst snd] in *.
    destruct IH as (Hres & Hrel & Hcalls & Hq).
    split; [exact Hres |]. split; [| split; [| exact Hq]].
    + rewrite !releases_app, releases_logged, Hrel. reflexivity.
    + intros c Hin. apply in_app_or in Hin as [Hin | Hin]; [| now apply Hcalls].
      apply in_app_or in Hin as [Hin | [Hin | [Hin | []]]].
      * unfold logged in Hin. destruct Hin as [Hin | Hin]; [discriminate |].
        apply in_map_iff in Hin as (h & Hh & _). discriminate.
      * now injection Hin as <-.
      * discriminate.
Qed.

Lemma window_cannot_be_closed_when_release_fails_witness :
  let w := failing (release CameraManager) (Exception "RuntimeError" "camera busy")
             ClickTrainer [] in
  let st := state_of (bind (GestApplication__init__ (calm ClickTrainer []))
                        (fun _ => create_main_window (calm ClickTrainer []))
                        initial_state) in
  let o := dispatch w (repeat WmDeleteWindow 3) st in
  result_of o = Hang /\
  releases (trace_of o) = [CameraManager; CameraManager; CameraManager] /\
  (forall c, In (Call c) (trace_of o) -> c = release CameraManager) /\
  quit_requested (state_of o) = false.
Proof.
  intros w st.
  apply (window_cannot_be_closed_when_release_fails w CameraManager
           (Exception "RuntimeError" "camera busy") 3 st); try reflexivity.
  discriminate.
Defined.

(** ** Start-up dialog and trainer mode *)

Lemma show_startup_dialog_Ret_inv w st tr st' mode :
  show_startup_dialog w st = (tr, st', Ret mode) ->
  mode = (match w_dialog w with ClickTrainer => "trainer" | _ => "exit" end).
Proof.
  unfold show_startup_dialog. intros H.
  repeat (apply bind_Ret_inv in H as (? & ? & ? & ? & _ & H & _)).
  unfold ret in H. injection H as _ _ <-.
  now destruct (w_dialog w).
Qed.

Lemma In_bind_trace {A B} (m : M A) (f : A -> M B) st x :
  In x (trace_of (bind m f st)) ->
  In x (trace_of (m st)) \/
  exists tr1 st1 a, m st = (tr1, st1, Ret a) /\ In x (trace_of (f a st1)).
Proof.
  unfold bind. destruct (m st) as [[tr1 st1] [a | e |]]; auto.
  destruct (f a st1) as [[tr2 st2] r] eqn:Hf. unfold trace_of at 1 2. cbn [fst].
  intros H. apply in_app_or in H as [H | H]; [now left |].
  right. exists tr1, st1, a. rewrite Hf. auto.
Qed.

Lemma In_trace_bind_l {A B} (m : M A) (f : A -> M B) st x :
  In x (trace_of (m st)) -> In x (trace_of (bind m f st)).
Proof.
  intros H. destruct (bind_trace_prefix m f st) as (rest & -> & _).
  apply in_or_app. now left.
Qed.

Lemma In_trace_bind_r {A B} (m : M A) (f : A -> M B) st tr1 st1 a x :
  m st = (tr1, st1, Ret a) -> In x (trace_of (f a st1)) -> In x (trace_of (bind m f st)).
Proof.
  intros Hm H. unfold bind. rewrite Hm.
  destruct (f a st1) as [[tr2 st2] r]. unfold trace_of in *. cbn [fst] in *.
  apply in_or_app. now right.
Qed.

Lemma In_trace_try_except {A} (m : M A) h st x :
  In x (trace_of (m st)) -> In x (trace_of (try_except m h st)).
Proof.
  unfold try_except. destruct (m st) as [[tr st1] [a | e |]]; auto.
  destruct (h e) as [k |]; auto.
  destruct (k st1) as [[tr' st2] r]. unfold trace_of. cbn [fst].
  intros H. apply in_or_app. now left.
Qed.

Lemma never_calls_bind {A B} c (m : M A) (f : A -> M B) :
  never_calls c m -> (forall a, never_calls c (f a)) -> never_calls c (bind m f).
Proof.
  intros Hm Hf st H. apply In_bind_trace in H as [H | (tr1 & st1 & a & _ & H)].
  - now apply (Hm st).
  - now apply (Hf a st1).
Qed.

Lemma never_calls_try_except {A} c (m : M A) h :
  never_calls c m -> (forall e k, h e = Some k -> never_calls c k) ->
  never_calls c (try_except m h).
Proof.
  intros Hm Hh st. specialize (Hm st). unfold try_except.
  destruct (m st) as [[tr st1] [a | e |]]; auto.
  destruct (h e) as [k |] eqn:He; auto.
  specialize (Hh e k He st1). destruct (k st1) as [[tr' st2] r].
  unfold trace_of in *. cbn [fst] in *.
  intros H. apply in_app_or in H as [H | H]; auto.
Qed.

Lemma never_calls_ext w c c' : c' <> c -> never_calls c (ext w c').
Proof.
  intros Hne st. unfold ext.
  destruct (w_call w (clock st) c'); intros [H | []]; injection H as H; now apply Hne.
Qed.

Lemma never_calls_silent {A} c (m : M A) :
  (forall st, trace_of (m st) = []) -> never_calls c m.
Proof. intros H st. now rewrite H. Qed.

Lemma never_calls_getattr {A} c name (field : GestApplication -> option A) :
  never_calls c (getattr name field).
Proof.
  apply never_calls_silent. intros st. unfold getattr. now destruct (field (self st)).
Qed.

Lemma never_calls_log c l msg : never_calls c (log l msg).
Proof.
  intros st. unfold log, trace_of, logged. cbn [fst].
  intros [H | H]; [discriminate |].
  apply in_map_iff in H as (h & Hh & _). discriminate.
Qed.

Lemma never_calls_self_logger c l msg : never_calls c (self_logger l msg).
Proof.
  apply never_calls_bind; [apply never_calls_getattr | intros _; apply never_calls_log].
Qed.

Lemma never_calls_destroy_widgets w c n :
  c <> tk "widget.destroy" -> never_calls c (destroy_widgets w n).
Proof.
  intros Hne. induction n as [| n IH]; cbn [destroy_widgets].
  - now apply never_calls_silent.
  - apply never_calls_bind; [apply never_calls_ext; congruence | intros _; exact IH].
Qed.

(** One step of the proof that a straight-line method never makes a given
    call. *)
Ltac never_calls_step :=
  first
    [ apply never_calls_self_logger
    | apply never_calls_log
    | apply never_calls_bind; [| intros ?]
    | apply never_calls_ext; discriminate
    | apply never_calls_getattr
    | apply never_calls_destroy_widgets; discriminate
    | apply never_calls_silent; intros ?; reflexivity
    | match goal with
      | |- never_calls _ (if ?b then _ else _) => destruct b
      | |- never_calls _ (match ?x with Some _ => _ | None => _ end) => destruct x
      end ].

Lemma create_main_window_never_starts_the_loop w :
  never_calls tk_mainloop (create_main_window w).
Proof. unfold create_main_window, configure_styles. repeat never_calls_step. Qed.

Lemma show_startup_dialog_never_starts_the_loop w :
  never_calls tk_mainloop (show_startup_dialog w).
Proof. unfold show_startup_dialog. repeat never_calls_step. Qed.

Lemma on_closing_never_starts_the_loop w : never_calls tk_mainloop (on_closing w).
Proof. unfold on_closing. repeat never_calls_step. Qed.

Lemma run_trainer_mode_never_starts_the_loop w :
  never_calls tk_mainloop (run_trainer_mode w).
Proof.
  unfold run_trainer_mode. apply never_calls_try_except.
  - repeat never_calls_step.
  - intros [| code | cls msg | cls msg] k [= <-]. repeat never_calls_step.
Qed.

Lemma keeps_try_except {A X} (g : state -> X) (m : M A) h :
  keeps g m -> (forall e k, h e = Some k -> keeps g k) -> keeps g (try_except m h).
Proof.
  intros Hm Hh st. specialize (Hm st). unfold try_except.
  destruct (m st) as [[tr st1] [a | e |]]; auto.
  destruct (h e) as [k |] eqn:He; auto.
  specialize (Hh e k He st1). destruct (k st1) as [[tr' st2] r].
  unfold state_of in *. cbn [fst snd] in *. congruence.
Qed.

Lemma keeps_attribute {A X} (f : GestApplication -> X) (m : M A) :
  keeps_attributes m -> keeps (fun st => f (self st)) m.
Proof. intros H st. cbv beta. now rewrite (H st). Qed.

Lemma keeps_attributes_ext w c : keeps_attributes (ext w c).
Proof. intros st. unfold ext. now destruct (w_call w (clock st) c). Qed.

Lemma keeps_attributes_destroy_widgets w n : keeps_attributes (destroy_widgets w n).
Proof.
  induction n as [| n IH]; cbn [destroy_widgets].
  - apply keeps_attributes_ret.
  - apply keeps_attributes_bind; [apply keeps_attributes_ext | intros _; exact IH].
Qed.

Lemma run_trainer_mode_keeps_root w : keeps (fun st => root (self st)) (run_trainer_mode w).
Proof.
  unfold run_trainer_mode. apply keeps_try_except.
  - apply keeps_bind; [apply keeps_attribute, keeps_attributes_getattr | intros _].
    apply keeps_bind; [apply keeps_attribute, keeps_attributes_ext | intros _].
    apply keeps_bind; [intros st; reflexivity | intros _].
    apply keeps_attribute.
    apply keeps_attributes_bind; [apply keeps_attributes_getattr | intros _].
    apply keeps_attributes_bind; [apply keeps_attributes_ext | intros _].
    apply keeps_attributes_bind; [apply keeps_attributes_destroy_widgets | intros _].
    apply keeps_attributes_self_logger.
  - intros [| code | cls msg | cls msg] k [= <-]. apply keeps_attribute.
    apply keeps_attributes_bind; [apply keeps_attributes_self_logger | intros _].
    apply keeps_attributes_ext.
Qed.

Lemma run_trainer_mode_builds_the_trainer_or_has_no_root w st :
  In (Call GestureTrainerGUI) (trace_of (run_trainer_mode w st)) \/
  root (self (state_of (run_trainer_mode w st))) = None.
Proof.
  destruct (root (self st)) as [rt |] eqn:Hroot.
  - left. unfold run_trainer_mode. apply In_trace_try_except.
    apply In_trace_bind_r with [] st rt; [unfold getattr; now rewrite Hroot |].
    apply In_trace_bind_l. unfold ext.
    destruct (w_call w (clock st) GestureTrainerGUI); now left.
  - right. now rewrite (run_trainer_mode_keeps_root w st).
Qed.

(** X6.  The event loop is entered in trainer mode only.  Whatever the
    collaborators do and from any state, when the body of [run] reaches
    [root.mainloop()], the trainer button was clicked in the start-up
    dialog and [GestureTrainerGUI(...)] has been called: the dialog answers
    "exit" or "trainer" and never the "main" of its docstring, so the
    branch of [run] that falls through to the event loop without a mode is
    never taken. *)
Theorem event_loop_only_in_trainer_mode w st :
  In (Call tk_mainloop) (trace_of (run_body w st)) ->
  w_dialog w = ClickTrainer /\
  In (Call GestureTrainerGUI) (trace_of (run_body w st)).
Proof.
  intros H. unfold run_body in H |- *.
  apply In_bind_trace in H as [H | (tr1 & st1 & [] & E1 & H)];
    [now apply never_calls_self_logger in H |].
  apply In_bind_trace in H as [H | (tr2 & st2 & [] & E2 & H)];
    [now apply create_main_window_never_starts_the_loop in H |].
  apply In_bind_trace in H as [H | (tr3 & st3 & mode & E3 & H)];
    [now apply show_startup_dialog_never_starts_the_loop in H |].
  pose proof (show_startup_dialog_Ret_inv w st2 tr3 st3 mode E3) as Hmode.
  assert (Hd : w_dialog w = ClickTrainer).
  { destruct (w_dialog w); [reflexivity | |]; subst mode;
      now apply on_closing_never_starts_the_loop in H. }
  rewrite Hd in Hmode. subst mode.
  split; [exact Hd |].
  apply In_trace_bind_r with tr1 st1 tt; [exact E1 |].
  apply In_trace_bind_r with tr2 st2 tt; [exact E2 |].
  apply In_trace_bind_r with tr3 st3 "trainer"; [exact E3 |].
  change (String.eqb "trainer" "exit") with false in H |- *.
  change (String.eqb "trainer" "trainer") with true in H |- *.
  cbv beta iota in H |- *.
  apply In_trace_bind_l.
  destruct (run_trainer_mode_builds_the_trainer_or_has_no_root w st3) as [Hin | Hroot];
    [exact Hin | exfalso].
  apply In_bind_trace in H as [H | (tr4 & st4 & [] & E4 & H)];
    [now apply run_trainer_mode_never_starts_the_loop in H |].
  rewrite E4 in Hroot. unfold state_of in Hroot. cbn [fst snd] in Hroot.
  apply In_bind_trace in H as [H | (tr5 & st5 & [] & E5 & H)];
    [now apply never_calls_self_logger in H |].
  pose proof (keeps_attributes_self_logger INFO "Starting GUI event loop..." st4) as Hk.
  rewrite E5 in Hk. unfold state_of in Hk. cbn [fst snd] in Hk.
  unfold mainloop, bind, getattr in H. rewrite Hk, Hroot in H. exact H.
Qed.

Lemma event_loop_only_in_trainer_mode_witness :
  let w := calm ClickTrainer [WmDeleteWindow] in
  let st := state_of (GestApplication__init__ w initial_state) in
  w_dialog w = ClickTrainer /\
  In (Call GestureTrainerGUI) (trace_of (run_body w st)).
Proof.
  intros w st.
  destruct (event_loop_only_in_trainer_mode w st) as (H1 & H2).
  - rewrite <- list_elem_of_In. apply (bool_decide_eq_true_1 _). vm_compute. reflexivity.
  - split; [exact H1 | exact H2].
Defined.

(** X7.  A trainer window that cannot be built does not stop the
    application.  When [GestureTrainerGUI(...)] raises an Exception and the
    other calls return, [run_trainer_mode] logs the Error record, shows the
    error dialog, and [run] goes on into the event loop; closing the window
    then ends the run in the normal way. *)
Theorem trainer_failure_is_not_fatal w d cls msg rest :
  only_raising w GestureTrainerGUI (Exception cls msg) ->
  w_dialog w = ClickTrainer ->
  w_gui w = WmDeleteWindow :: rest ->
  let o := main w d initial_state in
  error_dialogs (trace_of o) = ["Failed to start trainer mode: " +:+ msg] /\
  emitted (trace_of o)
  = [(INFO, "Logger initialized successfully");
     (INFO, "Starting Gest Application...");
     (INFO, "Configuration loaded successfully");
     (INFO, "Gest application initialized successfully");
     (INFO, "Starting Gest application...");
     (INFO, "Main window created: " +:+ w_window_title w);
     (ERROR, "Error running trainer mode: " +:+ msg);
     (INFO, "Starting GUI event loop...");
     (INFO, "Closing Gest application...");
     (INFO, "Gest application closed")] /\
  In (Call tk_mainloop) (trace_of o) /\
  releases (trace_of o) = [CameraManager; DetectionEngine] /\
  result_of o = Ret tt.
Proof.
  intros H Hd Hg o. subst o. revert Hd Hg. raising_world w H.
  intros title size dlg n evs Hd Hg. simpl in Hd, Hg. subst dlg evs.
  split; [vm_compute; reflexivity |]. split; [vm_compute; reflexivity |].
  split; [| split; vm_compute; reflexivity].
  rewrite <- list_elem_of_In. apply (bool_decide_eq_true_1 _). vm_compute. reflexivity.
Qed.

Lemma trainer_failure_is_not_fatal_witness :
  let w := failing GestureTrainerGUI (Exception "ImportError" "no module named cv2")
             ClickTrainer [WmDeleteWindow] in
  let o := main w handle_exceptions initial_state in
  error_dialogs (trace_of o) = ["Failed to start trainer mode: no module named cv2"] /\
  In (Call tk_mainloop) (trace_of o) /\
  releases (trace_of o) = [CameraManager; DetectionEngine] /\
  result_of o = Ret tt.
Proof.
  intros w o.
  destruct (trainer_failure_is_not_fatal w handle_exceptions
              "ImportError" "no module named cv2" []) as (H1 & _ & H3 & H4 & H5).
  - intros t c. reflexivity.
  - reflexivity.
  - reflexivity.
  - auto.
Defined.

(** ** Failures during start-up *)

(** X8.  When the acquisition of a resource raises, the acquisitions that
    [__init__] has attempted are those up to that resource, in the order
    of the code, and none after it.  If the exception is of class
    Exception, [main] ends without releasing anything: the resources
    acquired before the failure are not released. *)
Theorem failed_acquisition_stops_start_up w d r :
  (forall e, only_raising w (acquire r) e ->
     let o := GestApplication__init__ w initial_state in
     result_of o = Raise e /\
     (exists later, acquisition_order = acquisitions (trace_of o) ++ later) /\
     last (acquisitions (trace_of o)) = Some r) /\
  (forall cls msg, only_raising w (acquire r) (Exception cls msg) ->
     let o := main w d initial_state in
     acquisitions (trace_of o) = acquisitions (trace_of (GestApplication__init__ w initial_state)) /\
     releases (trace_of o) = [] /\
     result_of o = Ret tt).
Proof.
  split.
  - intros e H. raising_world w H. intros title size dlg n evs.
    destruct r; vm_compute; (split; [reflexivity |]); (split; [| reflexivity]);
      eexists; reflexivity.
  - intros cls msg H. raising_world w H. intros title size dlg n evs.
    destruct r; vm_compute; auto.
Qed.

Lemma failed_acquisition_stops_start_up_witness :
  let w := failing (acquire FeatureProcessor) (Exception "MemoryError" "out of memory")
             ClickExit [] in
  acquisitions (trace_of (GestApplication__init__ w initial_state))
  = [CameraManager; DetectionEngine; FeatureProcessor] /\
  releases (trace_of (main w handle_exceptions initial_state)) = [] /\
  result_of (main w handle_exceptions initial_state) = Ret tt.
Proof.
  intros w.
  destruct (failed_acquisition_stops_start_up w handle_exceptions FeatureProcessor)
    as [_ Hmain].
  destruct (Hmain "MemoryError" "out of memory") as (_ & H2 & H3).
  - intros t c. reflexivity.
  - split; [reflexivity |]. split; [exact H2 | exact H3].
Defined.

(** X9.  A configuration that cannot be loaded ends the start-up before
    any acquisition.  When [get_config_manager()] or [load_settings()]
    raises an Exception, [__init__] emits the Error record "Failed to load
    configuration: <message>" and exits: no resource is acquired.  The
    record is written to the three sinks of the default configuration; it
    is the only record in the error file, while the console and the
    all-levels file also hold the two Info records before it. *)
Theorem configuration_failure_is_logged_and_final w d c cls msg :
  c = get_config_manager \/ c = load_settings ->
  only_raising w c (Exception cls msg) ->
  let tr := trace_of (main w d initial_state) in
  acquisitions tr = [] /\
  emitted tr
  = [(INFO, "Logger initialized successfully");
     (INFO, "Starting Gest Application...");
     (ERROR, "Failed to load configuration: " +:+ msg)] /\
  match default_sinks with
  | [console; file; errors] =>
      written_to console tr = emitted tr /\
      written_to file tr = emitted tr /\
      written_to errors tr = [(ERROR, "Failed to load configuration: " +:+ msg)]
  | _ => False
  end /\
  printed tr = ["Gest application terminated"].
Proof.
  intros [-> | ->] H tr; subst tr; raising_world w H; intros title size dlg n evs;
    vm_compute; auto 10.
Qed.

Lemma configuration_failure_is_logged_and_final_witness :
  let w := failing load_settings (Exception "JSONDecodeError" "line 3") ClickExit [] in
  let tr := trace_of (main w handle_exceptions initial_state) in
  acquisitions tr = [] /\
  emitted tr
  = [(INFO, "Logger initialized successfully");
     (INFO, "Starting Gest Application...");
     (ERROR, "Failed to load configuration: line 3")] /\
  printed tr = ["Gest application terminated"].
Proof.
  intros w tr.
  destruct (configuration_failure_is_logged_and_final w handle_exceptions load_settings
              "JSONDecodeError" "line 3") as (H1 & H2 & _ & H4).
  - now right.
  - intros t c. reflexivity.
  - auto.
Defined.

(** X10.  When the log directory cannot be created, nothing is logged at
    all.  [logger.remove()] has already dropped loguru's default handler
    when [mkdir] raises, so the handler table is left empty; [__init__]
    stops before its first record, no resource is acquired, and [main]
    reports the failure on standard output only. *)
Theorem log_directory_failure_leaves_no_handler w d cls msg :
  only_raising w (mkdir "logs") (Exception cls msg) ->
  let o := main w d initial_state in
  handlers (state_of o) = [] /\
  _logger_instance (state_of o) = None /\
  emitted (trace_of o) = [] /\
  acquisitions (trace_of o) = [] /\
  printed (trace_of o) = ["Application error: " +:+ msg; "Gest application terminated"] /\
  result_of o = Ret tt.
Proof.
  intros H o. subst o. raising_world w H. intros title size dlg n evs.
  vm_compute. auto 10.
Qed.

Lemma log_directory_failure_leaves_no_handler_witness :
  let w := failing (mkdir "logs") (Exception "PermissionError" "read-only file system")
             ClickExit [] in
  let o := main w handle_exceptions initial_state in
  handlers (state_of o) = [] /\
  _logger_instance (state_of o) = None /\
  emitted (trace_of o) = [] /\
  acquisitions (trace_of o) = [] /\
  printed (trace_of o) = ["Application error: read-only file system";
                          "Gest application terminated"] /\
  result_of o = Ret tt.
Proof.
  intros w.
  apply (log_directory_failure_leaves_no_handler w handle_exceptions
           "PermissionError" "read-only file system").
  intros t c. reflexivity.
Defined.

(** X11.  In a run without failure that ends at the start-up dialog, every
    record is an Info record: the console and the all-levels file receive
    all of them, in order, and the error file receives none. *)
Theorem fault_free_run_keeps_error_log_empty w d :
  all_calls_return w ->
  w_dialog w <> ClickTrainer ->
  let tr := trace_of (main w d initial_state) in
  match default_sinks with
  | [console; file; errors] =>
      written_to console tr = emitted tr /\
      written_to file tr = emitted tr /\
      written_to errors tr = []
  | _ => False
  end /\
  (forall l msg, In (l, msg) (emitted tr) -> l = INFO).
Proof.
  intros H Hd tr. subst tr. revert Hd. calm_world w H.
  intros title size dlg n evs Hd. simpl in Hd.
  destruct dlg; [now destruct Hd | |]; vm_compute;
    (split; [auto |]);
    intros l msg Hin;
    repeat (destruct Hin as [Hin | Hin]; [now injection Hin |]); destruct Hin.
Qed.

Lemma fault_free_run_keeps_error_log_empty_witness :
  let tr := trace_of (main (calm ClickExit []) handle_exceptions initial_state) in
  match default_sinks with
  | [console; file; errors] =>
      written_to console tr = emitted tr /\
      written_to file tr = emitted tr /\
      written_to errors tr = []
  | _ => False
  end /\
  (forall l msg, In (l, msg) (emitted tr) -> l = INFO).
Proof.
  apply (fault_free_run_keeps_error_log_empty (calm ClickExit []) handle_exceptions).
  - intros t c. reflexivity.
  - discriminate.
Defined.

(** ** [main] on every path *)

(** X12.  [main] never lets an exception of class Exception or a
    KeyboardInterrupt reach its caller, whatever the collaborators and the
    decorator do; and on every path on which it ends, by returning or by
    an exception that it lets through, its last action is to print "Gest
    application terminated".  It hangs only if its [try] block does. *)
Theorem main_ends_with_final_line w d st :
  let o := main w d st in
  (forall cls msg, result_of o <> Raise (Exception cls msg)) /\
  result_of o <> Raise KeyboardInterrupt /\
  (result_of o <> Hang ->
   exists tr, trace_of o = tr ++ [Print "Gest application terminated"]) /\
  (result_of o = Hang <-> result_of (main_body w d st) = Hang).
Proof.
  intros o. subst o. rewrite main_outcome. cbv zeta.
  destruct (result_of (main_body w d st)) as [[] | [| code | cls msg | cls msg] |];
    unfold result_of at 1 2 3 4, trace_of at 1; cbn [fst snd];
    (split; [intros; discriminate |]); (split; [discriminate |]);
    (split; [| split; intros; (discriminate || reflexivity)]).
  - intros _. eauto.
  - intros _. eexists (_ ++ [_]). now rewrite <- app_assoc.
  - intros _. eauto.
  - intros _. eexists (_ ++ [_; _]). now rewrite <- app_assoc.
  - intros _. eauto.
  - intros H. now destruct H.
Qed.

(** ** Logging set-up: success and failure *)

(** X13.  [_setup_logger] succeeds for every log directory and every
    level that loguru knows, when the format, the rotation size and the
    retention count are those of the default configuration (which loguru
    accepts), and the directory and the sinks can be opened: it returns
    after exactly four collaborator calls, and the handler table holds
    exactly the console sink at the configured level, the all-levels file
    and the error file, whatever it held before: handlers installed
    earlier, loguru's default one included, are gone. *)
Theorem _setup_logger_succeeds w cfg st d lvl n :
  cfg !! "log_dir" = Some (PStr d) ->
  cfg !! "level" = Some lvl ->
  levelno_of lvl = Some n ->
  (forall k, In k ["format"; "max_file_size"; "backup_count"] ->
             cfg !! k = _get_default_config !! k) ->
  (forall t, w_call w t (mkdir d) = None) ->
  (forall t s, w_call w t (open_sink s) = None) ->
  let o := _setup_logger w cfg st in
  result_of o = Ret tt /\
  trace_of o
  = [Call (mkdir d); Call (open_sink Stderr);
     Call (open_sink (LogFile (path_join d "gest_{time}.log")));
     Call (open_sink (LogFile (path_join d "gest_errors_{time}.log")))]
    ++ logged (handlers (state_of o)) INFO "Logger initialized successfully" /\
  handlers (state_of o)
  = sinks_for d n
      (PStr "{time:YYYY-MM-DD HH:mm:ss} | {level} | {name}:{function}:{line} | {message}")
      (PStr "10MB") (PInt 5) /\
  clock (state_of o) = (4 + clock st)%nat /\
  self (state_of o) = self st /\
  _logger_instance (state_of o) = _logger_instance st.
Proof.
  intros Hdir Hlvl Hn Hdef Hmk Hopen o. subst o.
  assert (Hfmt : cfg !! "format"
                 = Some (PStr "{time:YYYY-MM-DD HH:mm:ss} | {level} | {name}:{function}:{line} | {message}"))
    by (rewrite Hdef by (simpl; auto); vm_compute; reflexivity).
  assert (Hrot : cfg !! "max_file_size" = Some (PStr "10MB"))
    by (rewrite Hdef by (simpl; auto); vm_compute; reflexivity).
  assert (Hret : cfg !! "backup_count" = Some (PInt 5))
    by (rewrite Hdef by (simpl; auto); vm_compute; reflexivity).
  clear Hdef.
  unfold _setup_logger, logger_remove, logger_add, getitem, resolve_level, Path.
  rewrite Hdir, Hlvl, Hfmt, Hrot, Hret.
  change (levelno_of (PStr "DEBUG")) with (Some (level_no DEBUG)).
  change (levelno_of (PStr "ERROR")) with (Some (level_no ERROR)).
  cbv [bind ret modify ext].
  repeat (first [rewrite Hmk | rewrite Hopen | rewrite Hn]; cbv beta iota zeta).
  repeat split.
Qed.

Lemma _setup_logger_succeeds_witness :
  let o := _setup_logger (calm ClickExit []) debug_config initial_state in
  result_of o = Ret tt /\
  handlers (state_of o)
  = sinks_for "debug_logs" (level_no DEBUG)
      (PStr "{time:YYYY-MM-DD HH:mm:ss} | {level} | {name}:{function}:{line} | {message}")
      (PStr "10MB") (PInt 5) /\
  clock (state_of o) = 4%nat.
Proof.
  intros o. subst o.
  destruct (_setup_logger_succeeds (calm ClickExit []) debug_config initial_state
              "debug_logs" (PStr "DEBUG") (level_no DEBUG))
    as (H1 & _ & H3 & H4 & _).
  - vm_compute. reflexivity.
  - vm_compute. reflexivity.
  - vm_compute. reflexivity.
  - intros k [<- | [<- | [<- | []]]]; vm_compute; reflexivity.
  - intros t. reflexivity.
  - intros t s. reflexivity.
  - split; [exact H1 |]. split; [exact H3 | exact H4].
Defined.

Lemma _setup_logger_keeps_instance w cfg : keeps _logger_instance (_setup_logger w cfg).
Proof.
  assert (Hext : forall c, keeps _logger_instance (ext w c)).
  { intros c st. unfold ext. now destruct (w_call w (clock st) c). }
  assert (Hget : forall k, keeps _logger_instance (getitem cfg k)).
  { intros k st. unfold getitem. now destruct (cfg !! k). }
  assert (Hadd : forall s fmt lvl rot ret_ comp col,
             keeps _logger_instance (logger_add w s fmt lvl rot ret_ comp col)).
  { intros. unfold logger_add.
    apply keeps_bind; [apply Hext | intros _].
    apply keeps_bind; [| intros no st; reflexivity].
    intros st. unfold resolve_level. now destruct (levelno_of lvl). }
  unfold _setup_logger.
  apply keeps_bind; [intros st; reflexivity | intros _].
  apply keeps_bind; [apply Hget | intros v].
  apply keeps_bind; [intros st; now destruct v | intros dir].
  apply keeps_bind; [apply Hext | intros _].
  apply keeps_bind; [apply Hget | intros lvl].
  apply keeps_bind; [apply Hadd | intros _].
  apply keeps_bind; [apply Hget | intros fmt].
  apply keeps_bind; [apply Hget | intros rot].
  apply keeps_bind; [apply Hget | intros ret_].
  apply keeps_bind; [apply Hadd | intros _].
  apply keeps_bind; [apply Hget | intros fmt'].
  apply keeps_bind; [apply Hget | intros rot'].
  apply keeps_bind; [apply Hget | intros ret'].
  apply keeps_bind; [apply Hadd | intros _].
  intros st. reflexivity.
Qed.

(** X14.  A configuration is not completed from the defaults.  If a
    non-empty dictionary lacks any of the five keys, [setup_logger] cannot
    succeed with it, whatever the collaborators do; the global instance
    stays unset, so that the next call of [setup_logger] or [get_logger]
    tries again. *)
Theorem setup_logger_needs_every_key w cfg st k :
  _logger_instance st = None ->
  cfg <> ∅ ->
  In k config_keys ->
  cfg !! k = None ->
  let o := setup_logger w (Some cfg) st in
  (forall u, result_of o <> Ret u) /\
  _logger_instance (state_of o) = None.
Proof.
  intros Hnone Hne Hk Hmiss o. subst o. split.
  - intros u Hret.
    destruct (setup_logger w (Some cfg) st) as [[tr st'] r] eqn:Hrun.
    unfold result_of in Hret. simpl in Hret. subst r.
    apply setup_logger_Ret_inv in Hrun
      as (d & lvl & n & fmt & rot & ret_ & Hd & Hl & _ & Hf & Hr & Hb & _); [| exact Hnone].
    unfold config_or_default in *. destruct (decide (cfg = ∅)) as [He | _]; [now destruct Hne |].
    unfold config_keys in Hk. simpl in Hk.
    destruct Hk as [<- | [<- | [<- | [<- | [<- | []]]]]]; congruence.
  - unfold setup_logger, bind at 1, get_state. rewrite Hnone.
    unfold GestLogger__init__.
    pose proof (_setup_logger_keeps_instance w (config_or_default (Some cfg)) st) as Hkeep.
    destruct (_setup_logger w (config_or_default (Some cfg)) st) as [[tr st'] [[] | e |]] eqn:Hrun.
    + exfalso.
      apply _setup_logger_Ret_inv in Hrun
        as (d & lvl & n & fmt & rot & ret_ & Hd & Hl & _ & Hf & Hr & Hb & _).
      unfold config_or_default in *.
      destruct (decide (cfg = ∅)) as [He | _]; [now destruct Hne |].
      unfold config_keys in Hk. simpl in Hk.
      destruct Hk as [<- | [<- | [<- | [<- | [<- | []]]]]]; congruence.
    + unfold bind. rewrite Hrun. unfold state_of in *. simpl in *. congruence.
    + unfold bind. rewrite Hrun. unfold state_of in *. simpl in *. congruence.
Qed.

Lemma setup_logger_needs_every_key_witness :
  let cfg : gmap string pyval := {["level" := PStr "DEBUG"]} in
  let o := setup_logger (calm ClickExit []) (Some cfg) initial_state in
  (forall u, result_of o <> Ret u) /\
  _logger_instance (state_of o) = None.
Proof.
  intros cfg.
  apply (setup_logger_needs_every_key (calm ClickExit []) cfg initial_state "log_dir").
  - reflexivity.
  - intros H. apply (f_equal (fun m => m !! "level")) in H. vm_compute in H. discriminate H.
  - left. reflexivity.
  - vm_compute. reflexivity.
Defined.

(** X15.  The logger is set up once.  After a call of [setup_logger] that
    returned, with whatever configuration, [get_logger] and any further
    [setup_logger] return at once and change nothing; in particular
    [setup_logger] followed by [get_logger] is [setup_logger]. *)
Theorem logger_is_set_up_once w cfg st :
  result_of (setup_logger w cfg st) = Ret tt ->
  let st' := state_of (setup_logger w cfg st) in
  get_logger w st' = ([], st', Ret tt) /\
  (forall cfg', setup_logger w cfg' st' = ([], st', Ret tt)) /\
  (setup_logger w cfg ;; get_logger w) st = setup_logger w cfg st.
Proof.
  intros Hret st'.
  assert (Hinst : exists g, _logger_instance st' = Some g).
  { subst st'. destruct (_logger_instance st) as [g |] eqn:Hst.
    - rewrite (setup_logger_configured w cfg st g Hst). eauto.
    - destruct (setup_logger w cfg st) as [[tr st1] r] eqn:Hrun.
      unfold result_of in Hret. simpl in Hret. subst r.
      apply setup_logger_Ret_inv in Hrun
        as (d & lvl & n & fmt & rot & ret_ & _ & _ & _ & _ & _ & _ & _ & Hi & _);
        [| exact Hst].
      eauto. }
  destruct Hinst as [g Hg].
  assert (Hget : get_logger w st' = ([], st', Ret tt)).
  { unfold get_logger, bind, get_state. rewrite Hg. reflexivity. }
  split; [exact Hget |]. split.
  - intros cfg'. now apply setup_logger_configured with g.
  - unfold bind at 1. subst st'.
    destruct (setup_logger w cfg st) as [[tr st1] r] eqn:Hrun.
    unfold result_of in Hret. unfold state_of in Hget. simpl in Hret, Hget. subst r.
    rewrite Hget. now rewrite app_nil_r.
Qed.

Lemma logger_is_set_up_once_witness :
  let w := calm ClickExit [] in
  let st' := state_of (setup_logger w (Some debug_config) initial_state) in
  get_logger w st' = ([], st', Ret tt) /\
  setup_logger w None st' = ([], st', Ret tt).
Proof.
  intros w st'.
  destruct (logger_is_set_up_once w (Some debug_config) initial_state) as (H1 & H2 & _).
  - vm_compute. reflexivity.
  - split; [exact H1 | apply H2].
Defined.
